(** * Parallel counting benchmark (main.cpp): shallow embedding and properties

    The development follows the layout of [main.cpp]:
    - [MachineInt]: the fixed-width integer conversions the code relies on;
    - [Counter]: [count_if], the predicates and [custom_parallel_count],
      with its worker threads, the partial-result vector and the join;
    - [Generator]: [generate_random_vector] over [mt19937];
    - [Runner]: [run_experiment] and [main], as state passing over the
      console output, with the clock as an oracle.

    With no hardware concurrency reported, [custom_parallel_count] divides
    by zero.  The language does not define what follows, so the outcome of
    such a call only records that it got there, and the runner comes in two
    readings: the process stops there, or the call goes on and returns some
    value.  Properties are stated so that they do not depend on which.

    Conventions.  An [int], [unsigned] or [long long] is a [Z]; conversions
    between widths are written out with their wrap-around.  A [size_t] that
    is a length of, an offset into, or a count over a vector is a [nat]: it
    is bounded by the vector's length, which fits a [size_t].  A
    [vector<int>] is a [list Z] and an iterator into it is an offset from
    [begin()].  *)

From Stdlib Require Import ZArith Lia.
From stdpp Require Import base numbers list list_numbers strings pretty.

(** ** Fixed-width integers *)

Module MachineInt.

Definition wrap_unsigned (bits z : Z) : Z := (z mod 2 ^ bits)%Z.

Definition wrap_signed (bits z : Z) : Z :=
  ((z + 2 ^ (bits - 1)) mod 2 ^ bits - 2 ^ (bits - 1))%Z.

(** Conversions to [int], [unsigned] and [size_t] (LLP64: 32, 32, 64 bits). *)
Definition to_int : Z → Z := wrap_signed 32.
Definition to_unsigned : Z → Z := wrap_unsigned 32.
Definition to_size_t : Z → Z := wrap_unsigned 64.

Definition INT_MAX : Z := (2 ^ 31 - 1)%Z.
Definition LLONG_MAX : Z := (2 ^ 63 - 1)%Z.

Definition is_int (z : Z) : Prop := (- 2 ^ 31 ≤ z ≤ INT_MAX)%Z.
Definition is_unsigned (z : Z) : Prop := (0 ≤ z < 2 ^ 32)%Z.

End MachineInt.

(** ** The parallel counter *)

Module Counter.
Import MachineInt.

(** [bool is_greater_than_500k(int x)] and [bool is_divisible_by_7(int x)];
    [%] on [int] truncates towards zero, which is [Z.rem]. *)
Definition is_greater_than_500k (x : Z) : bool := (500000 <? x)%Z.
Definition is_divisible_by_7 (x : Z) : bool := (Z.rem x 7 =? 0)%Z.

(** [std::count_if] over a whole sequence: one pass, one counter. *)
Fixpoint count_if (predicate : Z → bool) (l : list Z) : nat :=
  match l with
  | [] => 0
  | x :: l' => (if predicate x then 1 else 0) + count_if predicate l'
  end.

(** The elements an iterator range [first, last) of [v] runs over. *)
Definition range (v : list Z) (first last : nat) : list Z :=
  take (last - first) (drop first v).

(** [std::next(it, n)]. *)
Definition next (it n : nat) : nat := it + n.

(** What a worker's lambda captures by value: its block and its slot [i]. *)
Record worker : Type := Worker {
  block_start : nat;
  block_end : nat;
  slot : Z
}.

(** The body of the lambda:
    [partial_results[i] = count_if(block_start, block_end, predicate)]. *)
Definition run_worker (v : list Z) (predicate : Z → bool)
    (partial_results : list nat) (w : worker) : list nat :=
  <[Z.to_nat (slot w) := count_if predicate (range v (block_start w) (block_end w))]>
    partial_results.

(** The state of the spawning loop: the running [block_start] iterator and
    the [threads] vector. *)
Record spawn_state : Type := SpawnState {
  cursor : nat;
  threads : list worker
}.

(** One iteration of [for (int i = 0; i < num_threads; ++i)]. *)
Definition spawn_step (total_size block_size : nat) (num_threads : Z)
    (st : spawn_state) (i : Z) : spawn_state :=
  let block_end :=
    if (i =? num_threads - 1)%Z then total_size else next (cursor st) block_size in
  {| cursor := block_end;
     threads := threads st ++ [Worker (cursor st) block_end i] |}.

Definition spawn_loop (total_size block_size : nat) (num_threads : Z) : spawn_state :=
  fold_left (spawn_step total_size block_size num_threads)
    (seqZ 0 num_threads) {| cursor := 0; threads := [] |}.

(** The workers run concurrently; each writes one slot.  [join_all] commits
    their writes in the order given by [schedule]. *)
Definition join_all (v : list Z) (predicate : Z → bool)
    (schedule : list worker) (partial_results : list nat) : list nat :=
  fold_left (run_worker v predicate) schedule partial_results.

(** [std::accumulate(first, last, size_t(0))]. *)
Definition accumulate (l : list nat) : nat := fold_left Nat.add l 0.

(** [num_threads = min<size_t>(num_threads, thread::hardware_concurrency())]:
    both arguments converted to [size_t], the minimum narrowed back to [int]. *)
Definition clamp_threads (hardware_concurrency num_threads : Z) : Z :=
  to_int (Z.min (to_size_t num_threads) (to_size_t hardware_concurrency)).

(** A call either returns, having spawned [spawned] workers that left
    [partials] in the partial-result vector, or gets to the division
    [total_size / num_threads] with a zero divisor, before any worker
    exists.  What the program does from there is not defined by the
    language; [DivisionByZero] records that the call got there, no more. *)
Inductive outcome : Type :=
| Returned (spawned : list worker) (partials : list nat) (result : nat)
| DivisionByZero.

Definition result_of (o : outcome) : option nat :=
  match o with
  | Returned _ _ r => Some r
  | DivisionByZero => None
  end.

Definition spawned_of (o : outcome) : list worker :=
  match o with
  | Returned ws _ _ => ws
  | DivisionByZero => []
  end.

Definition partials_of (o : outcome) : list nat :=
  match o with
  | Returned _ ps _ => ps
  | DivisionByZero => []
  end.

(** [custom_parallel_count(begin, end, predicate, num_threads)], with the
    value of [thread::hardware_concurrency()] as a parameter and the order
    in which the workers commit as [schedule] (a reordering of the workers
    spawned). *)
Definition custom_parallel_count_scheduled (schedule : list worker → list worker)
    (hardware_concurrency : Z) (v : list Z) (predicate : Z → bool)
    (num_threads : Z) : outcome :=
  let total_size := length v in
  if (total_size =? 0) || (num_threads <=? 1)%Z then
    Returned [] [] (count_if predicate v)
  else
    let num_threads := clamp_threads hardware_concurrency num_threads in
    let partial_results := replicate (Z.to_nat num_threads) 0 in
    if (to_size_t num_threads =? 0)%Z then DivisionByZero
    else
      let block_size := total_size `div` Z.to_nat (to_size_t num_threads) in
      let st := spawn_loop total_size block_size num_threads in
      let partial_results :=
        join_all v predicate (schedule (threads st)) partial_results in
      Returned (threads st) partial_results (accumulate partial_results).

(** Closed form of the [i]-th worker the loop spawns, used to state what the
    loop computes. *)
Definition block_of (total_size block_size : nat) (num_threads i : Z) : worker :=
  Worker (Z.to_nat i * block_size)
    (if (i =? num_threads - 1)%Z then total_size else (Z.to_nat i + 1) * block_size)
    i.

(** The tally a worker commits. *)
Definition tally (v : list Z) (predicate : Z → bool) (w : worker) : nat :=
  count_if predicate (range v (block_start w) (block_end w)).

(** The divisor of [total_size / num_threads], for the calls that get to
    the division: [num_threads] after the clamp, as a [size_t]. *)
Definition divisor (hardware_concurrency : Z) (v : list Z) (num_threads : Z)
    : option Z :=
  if (length v =? 0) || (num_threads <=? 1)%Z then None
  else Some (to_size_t (clamp_threads hardware_concurrency num_threads)).

(** The call with the workers committing in spawn order. *)
Definition custom_parallel_count : Z → list Z → (Z → bool) → Z → outcome :=
  custom_parallel_count_scheduled id.

End Counter.

(** ** The data generator *)

Module Generator.
Import MachineInt.

(** [std::mt19937]: 624 words of 32 bits and the position of the next word. *)
Record mt19937 : Type := Mt19937 {
  mt : list Z;
  index : nat
}.

(** Seeding: [x_0 = seed mod 2^32],
    [x_i = (1812433253 * (x_{i-1} xor (x_{i-1} >> 30)) + i) mod 2^32]. *)
Fixpoint seed_words (count : nat) (i prev : Z) : list Z :=
  match count with
  | 0 => []
  | S count' =>
      let x := to_unsigned (1812433253 * Z.lxor prev (Z.shiftr prev 30) + i) in
      x :: seed_words count' (i + 1) x
  end.

Definition mt19937_seed (seed : Z) : mt19937 :=
  let x0 := to_unsigned seed in
  {| mt := x0 :: seed_words 623 1 x0; index := 624 |}.

(** One step of the in-place regeneration of the state. *)
Definition twist_step (words : list Z) (i : nat) : list Z :=
  let y := Z.lor (Z.land (words !!! i) 0x80000000)
                 (Z.land (words !!! ((i + 1) mod 624)) 0x7fffffff) in
  let x := Z.lxor (words !!! ((i + 397) mod 624)) (Z.shiftr y 1) in
  <[i := if Z.odd y then Z.lxor x 0x9908b0df else x]> words.

Definition twist (words : list Z) : list Z :=
  fold_left twist_step (seq 0 624) words.

Definition temper (y : Z) : Z :=
  let y := Z.lxor y (Z.land (Z.shiftr y 11) 0xffffffff) in
  let y := Z.lxor y (Z.land (Z.shiftl y 7) 0x9d2c5680) in
  let y := Z.lxor y (Z.land (Z.shiftl y 15) 0xefc60000) in
  Z.lxor y (Z.shiftr y 18).

(** [rng()]: the next 32-bit output and the advanced engine. *)
Definition mt19937_next (rng : mt19937) : Z * mt19937 :=
  let rng := if 624 <=? index rng
             then {| mt := twist (mt rng); index := 0 |} else rng in
  (temper (mt rng !!! index rng), {| mt := mt rng; index := S (index rng) |}).

Section Distribution.

(** [uniform_int_distribution<int> dist(a, b)]: how [dist(rng)] turns engine
    outputs into a value of [a..b] is left to the library; it is a function
    of the bounds and the engine, returning the value and the advanced
    engine. *)
Variable uniform_int_distribution : Z → Z → mt19937 → Z * mt19937.

(** The state of [for (auto& num : numbers) num = dist(rng);]. *)
Record fill_state : Type := FillState {
  numbers : list Z;
  rng : mt19937
}.

Definition fill_step (st : fill_state) (i : nat) : fill_state :=
  let '(x, rng') := uniform_int_distribution 0 1000000 (rng st) in
  {| numbers := <[i := x]> (numbers st); rng := rng' |}.

(** [generate_random_vector(size, seed)]; [seed] is an [unsigned]. *)
Definition generate_random_vector (size : nat) (seed : Z) : list Z :=
  numbers (fold_left fill_step (seq 0 size)
    {| numbers := replicate size 0%Z; rng := mt19937_seed seed |}).

(** The locals of a call as the objects of its frame: the vector, the
    engine and the distribution with the bounds it was built with.  When the
    call starts they hold whatever the frame held, for instance what an
    earlier call left there; each constructor overwrites its object. *)
Record frame : Type := Frame {
  frame_numbers : list Z;
  frame_rng : mt19937;
  frame_dist : Z * Z
}.

(** [vector<int> numbers(size);] *)
Definition construct_numbers (size : nat) (f : frame) : frame :=
  {| frame_numbers := replicate size 0%Z;
     frame_rng := frame_rng f; frame_dist := frame_dist f |}.

(** [mt19937 rng(seed);] *)
Definition construct_rng (seed : Z) (f : frame) : frame :=
  {| frame_numbers := frame_numbers f;
     frame_rng := mt19937_seed seed; frame_dist := frame_dist f |}.

(** [uniform_int_distribution<int> dist(a, b);] *)
Definition construct_dist (a b : Z) (f : frame) : frame :=
  {| frame_numbers := frame_numbers f;
     frame_rng := frame_rng f; frame_dist := (a, b) |}.

(** [num = dist(rng);] for the element at position [i]. *)
Definition assign_draw (f : frame) (i : nat) : frame :=
  let '(x, rng') :=
    uniform_int_distribution (frame_dist f).1 (frame_dist f).2 (frame_rng f) in
  {| frame_numbers := <[i := x]> (frame_numbers f);
     frame_rng := rng'; frame_dist := frame_dist f |}.

(** The body of [generate_random_vector], statement by statement, run in a
    frame [f]; it returns the vector and the frame it leaves.  The loop
    [for (auto& num : numbers)] runs over the elements the vector has. *)
Definition generate_random_vector_call (f : frame) (size : nat) (seed : Z)
    : list Z * frame :=
  let f := construct_numbers size f in
  let f := construct_rng seed f in
  let f := construct_dist 0 1000000 f in
  let f := fold_left assign_draw (seq 0 (length (frame_numbers f))) f in
  (frame_numbers f, f).

(** The first [count] values drawn from an engine, in order. *)
Fixpoint draws (count : nat) (rng : mt19937) : list Z :=
  match count with
  | 0 => []
  | S count' =>
      let '(x, rng') := uniform_int_distribution 0 1000000 rng in
      x :: draws count' rng'
  end.

End Distribution.

(** A distribution to run the generator with: the engine output reduced
    modulo the width of the interval.  The library's own is not this one. *)
Definition modulo_distribution (a b : Z) (rng : mt19937) : Z * mt19937 :=
  let '(y, rng') := mt19937_next rng in
  ((a + y mod (b - a + 1))%Z, rng').

End Generator.

(** ** The experiment runner and the entry point *)

Module Runner.
Import MachineInt Counter Generator.

(** What one timing sample measures. *)
Inductive strategy : Type :=
| NoPolicy
| ExecutionSeq
| ExecutionPar
| ExecutionParUnseq
| Custom (num_threads : Z).

(** What the program reads from its environment: the value of
    [thread::hardware_concurrency()] (an [unsigned]) and, for the clock, the
    milliseconds [measure_time_ms] reports for a strategy within the
    experiment of a given label (a [long long]). *)
Record environment : Type := Environment {
  hardware_concurrency : Z;
  elapsed_ms : string → strategy → Z
}.

(** One value per [cout] statement. *)
Inductive line : Type :=
| CppVersion
| Build
| HardwareThreads (n : Z)
| ExperimentHeader (label : string)
| StrategyTime (s : strategy) (ms : Z)
| CustomHeader
| ThreadsTime (num_threads ms : Z)
| BestK (best_threads hardware_threads : Z).

(** A computation writes lines and either yields a value or stops at a
    fault; the lines written before the fault stay written. *)
Definition process (A : Type) : Type := (list line * option A)%type.

Definition ret {A} (a : A) : process A := ([], Some a).

Definition bind {A B} (m : process A) (k : A → process B) : process B :=
  match m with
  | (out, Some a) => let '(out', r) := k a in (out ++ out', r)
  | (out, None) => (out, None)
  end.

Definition print (l : line) : process unit := ([l], Some ()).

Definition fault {A} : process A := ([], None).

Notation "'let*' x := m 'in' k" := (bind m (λ x, k))
  (at level 10, x name, m at level 100, k at level 200).
Notation "m ;; k" := (bind m (λ _, k))
  (at level 100, k at level 200, right associativity).

Fixpoint for_each {A S} (body : S → A → process S) (l : list A) (st : S)
    : process S :=
  match l with
  | [] => ret st
  | x :: l' => let* st' := body st x in for_each body l' st'
  end.

Definition output {A} (m : process A) : list line := fst m.
Definition completed {A} (m : process A) : bool := bool_decide (is_Some (snd m)).

(** A call of the counter inside the process, under the reading of the
    undefined division in which the process stops there.  The other
    reading is in [call_counter_under] below. *)
Definition call_counter (o : outcome) : process nat :=
  match o with
  | Returned _ _ r => ret r
  | DivisionByZero => fault
  end.

(** [measure_time_ms(func)]: run [func], report what the clock says. *)
Definition measure_time_ms {A} (e : environment) (label : string) (s : strategy)
    (func : process A) : process Z :=
  func ;; ret (elapsed_ms e label s).

(** [best_threads] and [best_time]. *)
Record sweep_state : Type := SweepState {
  best_threads : Z;
  best_time : Z
}.

(** [if (time_current < best_time) { best_time = ...; best_threads = ...; }] *)
Definition track_best (st : sweep_state) (num_threads time_current : Z)
    : sweep_state :=
  if (time_current <? best_time st)%Z
  then {| best_threads := num_threads; best_time := time_current |}
  else st.

(** What the sweep has tracked after the thread counts [ks], when the clock
    reports [timing k] for [k] threads. *)
Definition sweep_result (timing : Z → Z) (ks : list Z) : sweep_state :=
  fold_left (λ st k, track_best st k (timing k)) ks
    {| best_threads := 1; best_time := LLONG_MAX |}.

(** The body of the sweep over [num_threads]. *)
Definition sweep_step (e : environment) (numbers : list Z) (label : string)
    (predicate : Z → bool) (st : sweep_state) (num_threads : Z)
    : process sweep_state :=
  let* time_current :=
    measure_time_ms e label (Custom num_threads)
      (call_counter
        (custom_parallel_count (hardware_concurrency e) numbers predicate num_threads))
  in
  print (ThreadsTime num_threads time_current) ;;
  ret (track_best st num_threads time_current).

(** [int hardware_threads = thread::hardware_concurrency();
     if (hardware_threads == 0) hardware_threads = 4;] *)
Definition hardware_threads_of (e : environment) : Z :=
  let hardware_threads := to_int (hardware_concurrency e) in
  if (hardware_threads =? 0)%Z then 4%Z else hardware_threads.

(** [run_experiment(numbers, label, predicate)].  The loop
    [for (num_threads = 1; num_threads <= 2 * hardware_threads; ++num_threads)]
    runs over [seqZ 1 (2 * hardware_threads)]; [2 * hardware_threads] is
    taken without overflow, that is for fewer than [2^30] hardware threads. *)
Definition run_experiment (e : environment) (numbers : list Z) (label : string)
    (predicate : Z → bool) : process unit :=
  print (ExperimentHeader label) ;;
  let* time_no_policy :=
    measure_time_ms e label NoPolicy (ret (count_if predicate numbers)) in
  let* time_seq :=
    measure_time_ms e label ExecutionSeq (ret (count_if predicate numbers)) in
  let* time_par :=
    measure_time_ms e label ExecutionPar (ret (count_if predicate numbers)) in
  let* time_par_unseq :=
    measure_time_ms e label ExecutionParUnseq (ret (count_if predicate numbers)) in
  print (StrategyTime NoPolicy time_no_policy) ;;
  print (StrategyTime ExecutionSeq time_seq) ;;
  print (StrategyTime ExecutionPar time_par) ;;
  print (StrategyTime ExecutionParUnseq time_par_unseq) ;;
  print CustomHeader ;;
  let hardware_threads := hardware_threads_of e in
  let* st :=
    for_each (sweep_step e numbers label predicate)
      (seqZ 1 (2 * hardware_threads))
      {| best_threads := 1; best_time := LLONG_MAX |} in
  print (BestK (best_threads st) hardware_threads).

Definition data_sizes : list Z := [100000; 1000000; 5000000]%Z.

(** [std::to_string] of a [size_t]. *)
Definition to_string (n : Z) : string := pretty (Z.to_N n).

(** The body of [for (auto data_size : data_sizes)]. *)
Definition main_step (dist : Z → Z → mt19937 → Z * mt19937) (e : environment)
    (_ : unit) (data_size : Z) : process unit :=
  let numbers :=
    generate_random_vector dist (Z.to_nat data_size)
      (to_unsigned (to_size_t (data_size + 100))) in
  run_experiment e numbers
    ("Dataset N=" +:+ to_string data_size +:+ ", x > 500000") is_greater_than_500k ;;
  run_experiment e numbers
    ("Dataset N=" +:+ to_string data_size +:+ ", x % 7 == 0") is_divisible_by_7.

(** [main()], returning the exit status. *)
Definition main (dist : Z → Z → mt19937 → Z * mt19937) (e : environment)
    : process Z :=
  print CppVersion ;;
  print Build ;;
  print (HardwareThreads (hardware_concurrency e)) ;;
  for_each (main_step dist e) data_sizes () ;;
  ret 0%Z.

(** The other reading of the division by zero.  [undefined] says what
    happens when a call gets there: [None], the process stops; [Some r], the
    call goes on and returns [r] ([r] is 0 when the division is simply not
    carried out: the loop after it runs no iteration and the sum is empty).
    [call_counter_under None] is [call_counter]. *)
Definition call_counter_under (undefined : option nat) (o : outcome)
    : process nat :=
  match o with
  | Returned _ _ r => ret r
  | DivisionByZero =>
      match undefined with
      | Some r => ret r
      | None => fault
      end
  end.

Definition sweep_step_under (undefined : option nat) (e : environment)
    (numbers : list Z) (label : string) (predicate : Z → bool)
    (st : sweep_state) (num_threads : Z) : process sweep_state :=
  let* time_current :=
    measure_time_ms e label (Custom num_threads)
      (call_counter_under undefined
        (custom_parallel_count (hardware_concurrency e) numbers predicate num_threads))
  in
  print (ThreadsTime num_threads time_current) ;;
  ret (track_best st num_threads time_current).

Definition run_experiment_under (undefined : option nat) (e : environment)
    (numbers : list Z) (label : string) (predicate : Z → bool) : process unit :=
  print (ExperimentHeader label) ;;
  let* time_no_policy :=
    measure_time_ms e label NoPolicy (ret (count_if predicate numbers)) in
  let* time_seq :=
    measure_time_ms e label ExecutionSeq (ret (count_if predicate numbers)) in
  let* time_par :=
    measure_time_ms e label ExecutionPar (ret (count_if predicate numbers)) in
  let* time_par_unseq :=
    measure_time_ms e label ExecutionParUnseq (ret (count_if predicate numbers)) in
  print (StrategyTime NoPolicy time_no_policy) ;;
  print (StrategyTime ExecutionSeq time_seq) ;;
  print (StrategyTime ExecutionPar time_par) ;;
  print (StrategyTime ExecutionParUnseq time_par_unseq) ;;
  print CustomHeader ;;
  let hardware_threads := hardware_threads_of e in
  let* st :=
    for_each (sweep_step_under undefined e numbers label predicate)
      (seqZ 1 (2 * hardware_threads))
      {| best_threads := 1; best_time := LLONG_MAX |} in
  print (BestK (best_threads st) hardware_threads).

Definition main_step_under (undefined : option nat)
    (dist : Z → Z → mt19937 → Z * mt19937) (e : environment)
    (_ : unit) (data_size : Z) : process unit :=
  let numbers :=
    generate_random_vector dist (Z.to_nat data_size)
      (to_unsigned (to_size_t (data_size + 100))) in
  run_experiment_under undefined e numbers
    ("Dataset N=" +:+ to_string data_size +:+ ", x > 500000") is_greater_than_500k ;;
  run_experiment_under undefined e numbers
    ("Dataset N=" +:+ to_string data_size +:+ ", x % 7 == 0") is_divisible_by_7.

Definition main_under (undefined : option nat)
    (dist : Z → Z → mt19937 → Z * mt19937) (e : environment) : process Z :=
  print CppVersion ;;
  print Build ;;
  print (HardwareThreads (hardware_concurrency e)) ;;
  for_each (main_step_under undefined dist e) data_sizes () ;;
  ret 0%Z.

(** Environments to run the definitions with: two hardware threads, and
    none reported; one thread always takes 5 ms and more than one 3 ms. *)
Definition sample_clock (_ : string) (s : strategy) : Z :=
  match s with
  | Custom k => if (k =? 1)%Z then 5%Z else 3%Z
  | _ => 9%Z
  end.

Definition two_threads : environment :=
  {| hardware_concurrency := 2; elapsed_ms := sample_clock |}.

Definition no_threads_reported : environment :=
  {| hardware_concurrency := 0; elapsed_ms := sample_clock |}.

(** Readings of the output. *)

(** The experiment blocks a run starts: its headers, in order. *)
Definition experiment_blocks (out : list line) : list string :=
  omap (λ l, match l with ExperimentHeader label => Some label | _ => None end) out.

(** The thread counts a run reports a timing for, in order. *)
Definition swept_thread_counts (out : list line) : list Z :=
  omap (λ l, match l with ThreadsTime k _ => Some k | _ => None end) out.

(** The thread counts the best-K summaries report, in order. *)
Definition reported_best (out : list line) : list Z :=
  omap (λ l, match l with BestK k _ => Some k | _ => None end) out.

End Runner.

(** * Properties *)

(** ** Conversions are the identity within range *)

Module MachineIntFacts.
Import MachineInt.

Lemma to_int_id z : is_int z → to_int z = z.
Proof.
  unfold is_int, INT_MAX, to_int, wrap_signed. intros Hz.
  change (2 ^ (32 - 1))%Z with 2147483648%Z in *.
  change (2 ^ 31)%Z with 2147483648%Z in *.
  change (2 ^ 32)%Z with 4294967296%Z.
  rewrite Z.mod_small; lia.
Qed.

Lemma to_size_t_id z : (0 ≤ z < 2 ^ 64)%Z → to_size_t z = z.
Proof. intros Hz. unfold to_size_t, wrap_unsigned. by apply Z.mod_small. Qed.

Lemma to_unsigned_id z : is_unsigned z → to_unsigned z = z.
Proof. intros Hz. unfold to_unsigned, wrap_unsigned. by apply Z.mod_small. Qed.

End MachineIntFacts.


(** ** The parallel counter: partition, join and sum *)

Module CounterFacts.
Import MachineInt MachineIntFacts Counter.

Lemma count_if_app p l1 l2 :
  count_if p (l1 ++ l2) = count_if p l1 + count_if p l2.
Proof. induction l1 as [|x l1 IH]; simpl; [done | rewrite IH; lia]. Qed.

Lemma count_if_le_length p l : count_if p l ≤ length l.
Proof. induction l as [|x l IH]; simpl; [done | destruct (p x); lia]. Qed.

Lemma range_whole v : range v 0 (length v) = v.
Proof. unfold range. rewrite drop_0, Nat.sub_0_r. by apply take_ge. Qed.

Lemma range_empty v a : range v a a = [].
Proof. unfold range. by rewrite Nat.sub_diag, take_0. Qed.

Lemma range_split v a b c :
  a ≤ b → b ≤ c → range v a c = range v a b ++ range v b c.
Proof.
  intros Hab Hbc. unfold range.
  replace (drop b v) with (drop (b - a) (drop a v))
    by (rewrite drop_drop; f_equal; lia).
  rewrite take_take_drop. f_equal. lia.
Qed.

Lemma accumulate_sum_list l : accumulate l = sum_list l.
Proof.
  unfold accumulate.
  assert (∀ acc, fold_left Nat.add l acc = acc + sum_list l) as H.
  { induction l as [|x l IH]; intros acc; simpl; [lia | rewrite IH; lia]. }
  by rewrite H.
Qed.

(** *** The clamp *)

Lemma clamp_threads_min hw k :
  is_unsigned hw → (0 ≤ k ≤ INT_MAX)%Z → clamp_threads hw k = Z.min k hw.
Proof.
  unfold is_unsigned, INT_MAX, clamp_threads. intros Hhw Hk.
  rewrite !to_size_t_id by lia.
  apply to_int_id. unfold is_int, INT_MAX. lia.
Qed.

(** *** The spawning loop *)

Lemma spawn_loop_prefix total_size block_size num_threads (n : nat) :
  (Z.of_nat n ≤ num_threads - 1)%Z →
  fold_left (spawn_step total_size block_size num_threads)
    (seqZ 0 (Z.of_nat n)) {| cursor := 0; threads := [] |}
  = {| cursor := n * block_size;
       threads := block_of total_size block_size num_threads <$> seqZ 0 (Z.of_nat n) |}.
Proof.
  induction n as [|n IH]; intros Hn; [done|].
  rewrite seqZ_S, Z.add_0_l, fold_left_app, IH by lia. simpl.
  unfold spawn_step, block_of, next. simpl.
  rewrite fmap_app. simpl. rewrite Nat2Z.id.
  destruct (Z.eqb_spec (Z.of_nat n) (num_threads - 1)) as [Heq|_]; [lia|].
  f_equal; [lia|]. do 3 f_equal. lia.
Qed.

Lemma spawn_loop_threads total_size block_size num_threads :
  threads (spawn_loop total_size block_size num_threads)
  = block_of total_size block_size num_threads <$> seqZ 0 num_threads.
Proof.
  unfold spawn_loop.
  destruct (Z.le_gt_cases num_threads 0) as [Hle|Hgt].
  { by rewrite seqZ_nil. }
  replace num_threads with (Z.of_nat (S (Z.to_nat (num_threads - 1)))) at 2 4 by lia.
  rewrite seqZ_S, Z.add_0_l, fold_left_app, spawn_loop_prefix by lia. simpl.
  rewrite fmap_app. f_equal. simpl. unfold block_of. rewrite !Nat2Z.id.
  destruct (Z.eqb_spec (Z.of_nat (Z.to_nat (num_threads - 1))) (num_threads - 1));
    [done | lia].
Qed.

Lemma spawn_loop_cursor total_size block_size num_threads :
  (0 < num_threads)%Z →
  cursor (spawn_loop total_size block_size num_threads) = total_size.
Proof.
  intros Hgt. unfold spawn_loop.
  replace num_threads with (Z.of_nat (S (Z.to_nat (num_threads - 1)))) at 2 by lia.
  rewrite seqZ_S, Z.add_0_l, fold_left_app, spawn_loop_prefix by lia. simpl.
  unfold spawn_step. simpl.
  destruct (Z.eqb_spec (Z.of_nat (Z.to_nat (num_threads - 1))) (num_threads - 1));
    [done | lia].
Qed.

(** *** The join: each worker owns its slot *)

Lemma run_worker_comm v p pr w1 w2 :
  Z.to_nat (slot w1) ≠ Z.to_nat (slot w2) →
  run_worker v p (run_worker v p pr w1) w2
  = run_worker v p (run_worker v p pr w2) w1.
Proof. intros Hne. unfold run_worker. by apply list_insert_insert_ne. Qed.

(** Workers with pairwise distinct slots commit the same vector in every
    order. *)
Lemma join_all_permutation v p ws ws' pr :
  NoDup ((λ w, Z.to_nat (slot w)) <$> ws) → ws' ≡ₚ ws →
  join_all v p ws' pr = join_all v p ws pr.
Proof.
  intros Hnd Hperm. revert pr Hnd. unfold join_all.
  induction Hperm as [|w l l' Hp IH|w1 w2 l|l1 l2 l3 Hp1 IH1 Hp2 IH2];
    intros pr Hnd.
  - done.
  - simpl. apply IH. rewrite fmap_cons in Hnd. by apply NoDup_cons in Hnd as [_ ?].
  - simpl. rewrite (run_worker_comm v p pr w2 w1); [done|].
    rewrite !fmap_cons in Hnd. apply NoDup_cons in Hnd as [Hnotin _].
    intros Heq. apply Hnotin. rewrite Heq. left.
  - rewrite IH1; [by apply IH2|]. by rewrite Hp2.
Qed.

Lemma join_all_spawn_order v p (f : Z → worker) (n : nat) pr :
  (∀ i, slot (f i) = i) → n ≤ length pr →
  join_all v p (f <$> seqZ 0 (Z.of_nat n)) pr
  = (tally v p <$> (f <$> seqZ 0 (Z.of_nat n))) ++ drop n pr.
Proof.
  intros Hslot. unfold join_all. induction n as [|n IH]; intros Hn.
  { simpl. by rewrite drop_0. }
  rewrite seqZ_S, Z.add_0_l, !fmap_app, fold_left_app, IH by lia. simpl.
  unfold run_worker at 1. rewrite Hslot, Nat2Z.id.
  destruct (lookup_lt_is_Some_2 pr n) as [y Hy]; [lia|].
  rewrite insert_app_r_alt by (rewrite !length_fmap, length_seqZ; lia).
  rewrite !length_fmap, length_seqZ, Nat2Z.id, Nat.sub_diag.
  rewrite (drop_S _ _ _ Hy). simpl. by rewrite <- app_assoc.
Qed.

(** *** Contiguous blocks add up *)

Lemma sum_tally_prefix v p total_size block_size num_threads (n : nat) :
  (Z.of_nat n ≤ num_threads - 1)%Z →
  sum_list (tally v p <$>
    (block_of total_size block_size num_threads <$> seqZ 0 (Z.of_nat n)))
  = count_if p (range v 0 (n * block_size)).
Proof.
  induction n as [|n IH]; intros Hn.
  { change (0 * block_size) with 0. by rewrite range_empty. }
  rewrite seqZ_S, Z.add_0_l, !fmap_app, sum_list_with_app, IH by lia. simpl.
  unfold tally, block_of. simpl. rewrite Nat2Z.id.
  destruct (Z.eqb_spec (Z.of_nat n) (num_threads - 1)) as [Heq|_]; [lia|].
  rewrite (range_split v 0 (n * block_size) (block_size + n * block_size)) by lia.
  rewrite count_if_app. replace ((n + 1) * block_size) with (block_size + n * block_size) by lia.
  lia.
Qed.

Lemma sum_tally_all v p block_size num_threads :
  (0 < num_threads)%Z →
  Z.to_nat (num_threads - 1) * block_size ≤ length v →
  sum_list (tally v p <$>
    (block_of (length v) block_size num_threads <$> seqZ 0 num_threads))
  = count_if p v.
Proof.
  intros Hgt Hfit.
  replace num_threads with (Z.of_nat (S (Z.to_nat (num_threads - 1)))) at 2 by lia.
  rewrite seqZ_S, Z.add_0_l, !fmap_app, sum_list_with_app, sum_tally_prefix by lia.
  simpl. unfold tally, block_of. simpl. rewrite Nat2Z.id.
  destruct (Z.eqb_spec (Z.of_nat (Z.to_nat (num_threads - 1))) (num_threads - 1));
    [|lia].
  pose proof (range_split v 0 (Z.to_nat (num_threads - 1) * block_size) (length v))
    as Hsplit.
  rewrite range_whole in Hsplit.
  transitivity (count_if p
    (range v 0 (Z.to_nat (num_threads - 1) * block_size)
     ++ range v (Z.to_nat (num_threads - 1) * block_size) (length v))).
  - rewrite count_if_app. lia.
  - rewrite <- Hsplit; [done | apply Nat.le_0_l | done].
Qed.

Lemma block_of_slot total_size block_size num_threads i :
  slot (block_of total_size block_size num_threads i) = i.
Proof. done. Qed.

Lemma block_of_slots_NoDup total_size block_size num_threads :
  NoDup ((λ w, Z.to_nat (slot w)) <$>
    (block_of total_size block_size num_threads <$> seqZ 0 num_threads)).
Proof.
  rewrite <- list_fmap_compose. apply NoDup_fmap_2_strong; [|apply NoDup_seqZ].
  intros i j Hi Hj. simpl. apply elem_of_seqZ in Hi, Hj. lia.
Qed.

Lemma join_all_blocks v p total_size block_size num_threads :
  (0 ≤ num_threads)%Z →
  join_all v p (block_of total_size block_size num_threads <$> seqZ 0 num_threads)
    (replicate (Z.to_nat num_threads) 0)
  = tally v p <$> (block_of total_size block_size num_threads <$> seqZ 0 num_threads).
Proof.
  intros Hnn.
  pose proof (join_all_spawn_order v p
    (block_of total_size block_size num_threads) (Z.to_nat num_threads)
    (replicate (Z.to_nat num_threads) 0)) as Hjoin.
  rewrite Z2Nat.id in Hjoin by done.
  rewrite Hjoin by (apply block_of_slot || (rewrite length_replicate; lia)).
  rewrite drop_replicate, Nat.sub_diag. simpl. by rewrite app_nil_r.
Qed.

(** *** The call, in the case that spawns workers *)

Lemma custom_parallel_count_scheduled_spawns schedule hw v p k :
  (∀ ws, schedule ws ≡ₚ ws) →
  is_unsigned hw → (1 ≤ hw)%Z → (2 ≤ k ≤ INT_MAX)%Z → v ≠ [] →
  let t := Z.min k hw in
  let ws := block_of (length v) (length v `div` Z.to_nat t) t <$> seqZ 0 t in
  custom_parallel_count_scheduled schedule hw v p k
  = Returned ws (tally v p <$> ws) (count_if p v).
Proof.
  intros Hsched Hhw Hhw1 Hk Hv t ws.
  unfold custom_parallel_count_scheduled.
  destruct (Nat.eqb_spec (length v) 0) as [Hlen|_].
  { destruct v; [done | discriminate]. }
  destruct (Z.leb_spec k 1) as [?|_]; [lia|]. simpl.
  rewrite clamp_threads_min by (done || (unfold INT_MAX in *; lia)). fold t.
  assert (1 ≤ t ≤ INT_MAX)%Z as Ht by (unfold t; lia).
  rewrite to_size_t_id by (unfold INT_MAX in Ht; lia).
  destruct (Z.eqb_spec t 0) as [?|_]; [lia|].
  rewrite spawn_loop_threads. fold ws.
  assert (join_all v p (schedule ws) (replicate (Z.to_nat t) 0) = tally v p <$> ws)
    as ->.
  { rewrite (join_all_permutation v p ws) by (apply block_of_slots_NoDup || done).
    apply join_all_blocks. lia. }
  f_equal. rewrite accumulate_sum_list. unfold ws. apply sum_tally_all; [lia|].
  assert (Z.to_nat (t - 1) ≤ Z.to_nat t) as Hle by lia.
  pose proof (Nat.Div0.mul_div_le (length v) (Z.to_nat t)) as Hdiv.
  nia.
Qed.

(** The call returns the sequential count whenever the hardware reports at
    least one execution unit, whatever the order in which workers commit. *)
Lemma custom_parallel_count_scheduled_correct schedule hw v p k :
  (∀ ws, schedule ws ≡ₚ ws) →
  is_unsigned hw → (1 ≤ hw)%Z → is_int k →
  result_of (custom_parallel_count_scheduled schedule hw v p k)
  = Some (count_if p v).
Proof.
  intros Hsched Hhw Hhw1 Hk.
  destruct (decide (v = [])) as [->|Hv]; [done|].
  destruct (Z.le_gt_cases k 1) as [Hle|Hgt].
  - unfold custom_parallel_count_scheduled.
    destruct (Z.leb_spec k 1) as [_|?]; [|lia]. by rewrite orb_true_r.
  - rewrite custom_parallel_count_scheduled_spawns; [done..| |done].
    unfold is_int in Hk. lia.
Qed.

(** With no hardware concurrency reported, the clamp yields zero and the
    call gets to the division by zero. *)
Lemma custom_parallel_count_scheduled_zero schedule v p k :
  (2 ≤ k ≤ INT_MAX)%Z → v ≠ [] →
  custom_parallel_count_scheduled schedule 0 v p k = DivisionByZero.
Proof.
  intros Hk Hv. unfold custom_parallel_count_scheduled.
  destruct (Nat.eqb_spec (length v) 0) as [Hlen|_].
  { destruct v; [done | discriminate]. }
  destruct (Z.leb_spec k 1) as [?|_]; [lia|]. simpl.
  rewrite clamp_threads_min by (unfold is_unsigned, INT_MAX in *; lia).
  by rewrite Z.min_r by lia.
Qed.

(** *** The blocks, by index *)

Lemma blocks_lookup total_size block_size num_threads (i : nat) w :
  (block_of total_size block_size num_threads <$> seqZ 0 num_threads) !! i = Some w
  ↔ (Z.of_nat i < num_threads)%Z
    ∧ w = block_of total_size block_size num_threads (Z.of_nat i).
Proof.
  rewrite list_lookup_fmap, fmap_Some. setoid_rewrite lookup_seqZ.
  split.
  - intros (x & [-> ?] & ->). by rewrite Z.add_0_l.
  - intros [? ->]. exists (Z.of_nat i). by rewrite Z.add_0_l.
Qed.

(** Seven elements on three threads: blocks of 2, 2 and 3. *)
Example custom_parallel_count_7_on_3 :
  custom_parallel_count 4 [1; 7; 14; 500001; 21; 3; 49]%Z is_divisible_by_7 3
  = Returned [Worker 0 2 0; Worker 2 4 1; Worker 4 7 2] [1; 1; 2] 4.
Proof. reflexivity. Qed.

(** *** Claims about the partition *)



(** *** Claims about the call *)

(** C1 (at the input where it fails). The claim: for every sequence,
    predicate and requested thread count [K >= 1] the call returns the
    sequential count.  With [hardware_concurrency() = 0], the sequence
    [7; 14; 3], the predicate [is_divisible_by_7] and [K = 2], the
    sequential count is 2, while the call clamps [num_threads] to 0 and
    gets to the division [total_size / num_threads] by zero: it does not
    return the count. *)
Theorem custom_parallel_count_no_concurrency :
  count_if is_divisible_by_7 [7; 14; 3]%Z = 2
  ∧ custom_parallel_count 0 [7; 14; 3]%Z is_divisible_by_7 2 = DivisionByZero
  ∧ result_of (custom_parallel_count 0 [7; 14; 3]%Z is_divisible_by_7 2)
    ≠ Some (count_if is_divisible_by_7 [7; 14; 3]%Z).
Proof. repeat split. discriminate. Qed.

(** C4. If the sequence is empty or the requested thread count is at most
    1, the call returns the single-threaded count of the whole sequence and
    has spawned no worker and made no partial-result slot; for the empty
    sequence that count is 0, for any thread count and any predicate. *)
Theorem degenerate_fallback schedule hw (v : list Z) p k :
  v = [] ∨ (k ≤ 1)%Z →
  custom_parallel_count_scheduled schedule hw v p k
  = Returned [] [] (count_if p v)
  ∧ (v = [] → custom_parallel_count_scheduled schedule hw v p k = Returned [] [] 0).
Proof.
  intros Hdeg. unfold custom_parallel_count_scheduled.
  assert ((length v =? 0) || (k <=? 1)%Z = true) as ->.
  { destruct Hdeg as [->|Hk]; [done|].
    destruct (Z.leb_spec k 1); [by rewrite orb_true_r | lia]. }
  split; [done|]. by intros ->.
Qed.

Lemma degenerate_fallback_witness :
  (([] : list Z) = [] ∨ (8 ≤ 1)%Z)
  ∧ custom_parallel_count_scheduled id 0 [] is_greater_than_500k 8
    = Returned [] [] 0.
Proof.
  split; [by left|].
  apply (degenerate_fallback id 0 [] is_greater_than_500k 8); [by left | done].
Defined.

(** C5. For every non-empty sequence and every requested thread count
    [K >= 2], the thread count the call works with after the clamp is the
    minimum of [K] and the hardware-reported concurrency; that many workers
    are spawned and that many partial-result slots are made, so never more
    workers than the hardware-reported concurrency. *)
Theorem effective_thread_count schedule hw (v : list Z) p k :
  v ≠ [] → (2 ≤ k ≤ INT_MAX)%Z → is_unsigned hw →
  let o := custom_parallel_count_scheduled schedule hw v p k in
  clamp_threads hw k = Z.min k hw
  ∧ Z.of_nat (length (spawned_of o)) = Z.min k hw
  ∧ Z.of_nat (length (partials_of o)) = Z.min k hw
  ∧ (Z.of_nat (length (spawned_of o)) ≤ hw)%Z.
Proof.
  intros Hv Hk Hhw o.
  assert (clamp_threads hw k = Z.min k hw) as Hclamp
    by (apply clamp_threads_min; [done | lia]).
  assert (0 ≤ Z.min k hw ≤ INT_MAX)%Z as Hmin
    by (unfold is_unsigned in Hhw; lia).
  split; [done|].
  assert (Z.of_nat (length (spawned_of o)) = Z.min k hw
          ∧ Z.of_nat (length (partials_of o)) = Z.min k hw) as [Hws Hpr].
  { unfold o, custom_parallel_count_scheduled.
    destruct (Nat.eqb_spec (length v) 0) as [Hlen|_].
    { destruct v; [done | discriminate]. }
    destruct (Z.leb_spec k 1) as [?|_]; [lia|]. simpl.
    rewrite Hclamp, to_size_t_id by (unfold INT_MAX in Hmin; lia).
    destruct (Z.eqb_spec (Z.min k hw) 0) as [Hz|Hnz]; simpl.
    { by rewrite Hz. }
    rewrite spawn_loop_threads, length_fmap, length_seqZ.
    split; [lia|].
    assert (∀ ws pr, length (join_all v p ws pr) = length pr) as Hjoin.
    { intros ws. unfold join_all. induction ws as [|w ws IH]; intros pr; [done|].
      simpl. rewrite IH. unfold run_worker. by rewrite length_insert. }
    rewrite Hjoin, length_replicate. lia. }
  repeat split; [done | done | lia].
Qed.

Lemma effective_thread_count_witness :
  [1; 2; 3]%Z ≠ [] ∧ (2 ≤ 8 ≤ INT_MAX)%Z ∧ is_unsigned 4
  ∧ Z.of_nat (length (spawned_of
      (custom_parallel_count_scheduled id 4 [1; 2; 3]%Z is_divisible_by_7 8)))
    = Z.min 8 4.
Proof.
  assert ([1; 2; 3]%Z ≠ []) as Hv by discriminate.
  assert (2 ≤ 8 ≤ INT_MAX)%Z as Hk by (unfold INT_MAX; lia).
  assert (is_unsigned 4) as Hhw by (unfold is_unsigned; lia).
  split; [exact Hv|]. split; [exact Hk|]. split; [exact Hhw|].
  apply (effective_thread_count id 4 [1; 2; 3]%Z is_divisible_by_7 8 Hv Hk Hhw).
Defined.

(** C9 (at the inputs where it fails). The claim: for a non-empty sequence
    and [K >= 2] the divisor of [total_size / num_threads] is strictly
    positive, also when the hardware-reported concurrency is 0.  With that
    concurrency 0 the clamp makes the divisor 0, for every non-empty
    sequence and every [K >= 2], and the call gets to the division by
    zero. *)
Theorem divisor_zero_without_concurrency (v : list Z) p k :
  v ≠ [] → (2 ≤ k ≤ INT_MAX)%Z →
  clamp_threads 0 k = 0%Z
  ∧ to_size_t (clamp_threads 0 k) = 0%Z
  ∧ custom_parallel_count 0 v p k = DivisionByZero.
Proof.
  intros Hv Hk.
  assert (clamp_threads 0 k = 0%Z) as Hclamp.
  { rewrite clamp_threads_min by (unfold is_unsigned; lia). lia. }
  rewrite Hclamp. repeat split.
  by apply custom_parallel_count_scheduled_zero.
Qed.

Lemma divisor_zero_without_concurrency_witness :
  [5]%Z ≠ [] ∧ (2 ≤ 2 ≤ INT_MAX)%Z
  ∧ custom_parallel_count 0 [5]%Z is_greater_than_500k 2 = DivisionByZero.
Proof.
  assert ([5]%Z ≠ []) as Hv by discriminate.
  assert (2 ≤ 2 ≤ INT_MAX)%Z as Hk by (unfold INT_MAX; lia).
  split; [exact Hv|]. split; [exact Hk|].
  apply (divisor_zero_without_concurrency [5]%Z is_greater_than_500k 2 Hv Hk).
Defined.

(** C10. For every non-empty sequence of length [L] and effective thread
    count [T = min(K, hardware concurrency)] with [T > L], the block size
    [L / T] is 0, each of the first [T - 1] workers gets the empty block at
    the start of the sequence and commits the tally 0, the last worker gets
    the whole sequence, and the call returns the sequential count, whatever
    the order in which workers commit. *)
Theorem more_threads_than_elements schedule hw (v : list Z) p k :
  (∀ ws, schedule ws ≡ₚ ws) →
  is_unsigned hw → (2 ≤ k ≤ INT_MAX)%Z → v ≠ [] →
  (Z.of_nat (length v) < Z.min k hw)%Z →
  let t := Z.min k hw in
  length v `div` Z.to_nat t = 0
  ∧ ∃ ws pr,
      custom_parallel_count_scheduled schedule hw v p k
      = Returned ws pr (count_if p v)
      ∧ length ws = Z.to_nat t
      ∧ (∀ i : nat, (Z.of_nat i < t - 1)%Z →
           ws !! i = Some (Worker 0 0 (Z.of_nat i)) ∧ pr !! i = Some 0)
      ∧ ws !! Z.to_nat (t - 1) = Some (Worker 0 (length v) (t - 1))
      ∧ pr !! Z.to_nat (t - 1) = Some (count_if p v).
Proof.
  intros Hsched Hhw Hk Hv Hmore t.
  assert (length v `div` Z.to_nat t = 0) as Hbs
    by (apply Nat.div_small; unfold t; lia).
  split; [done|].
  assert (1 ≤ hw)%Z as Hhw1 by (fold t in Hmore; unfold t in *; lia).
  pose proof (custom_parallel_count_scheduled_spawns schedule hw v p k
    Hsched Hhw Hhw1 Hk Hv) as Hcall.
  simpl in Hcall. fold t in Hcall. rewrite Hbs in Hcall.
  eexists _, _. split; [exact Hcall|].
  split; [by rewrite length_fmap, length_seqZ|].
  assert (∀ i : nat, (Z.of_nat i < t - 1)%Z →
    block_of (length v) 0 t (Z.of_nat i) = Worker 0 0 (Z.of_nat i)) as Hfirst.
  { intros i Hi. unfold block_of.
    destruct (Z.eqb_spec (Z.of_nat i) (t - 1)); [lia|]. f_equal; lia. }
  assert (block_of (length v) 0 t (t - 1) = Worker 0 (length v) (t - 1)) as Hlast.
  { unfold block_of. rewrite Z.eqb_refl. f_equal. lia. }
  assert (Z.of_nat (Z.to_nat (t - 1)) = (t - 1)%Z) as Hidx by (unfold t; lia).
  split; [|split].
  - intros i Hi.
    assert ((block_of (length v) 0 t <$> seqZ 0 t) !! i
            = Some (Worker 0 0 (Z.of_nat i))) as Hw.
    { apply blocks_lookup. split; [lia | by rewrite Hfirst]. }
    split; [done|]. rewrite list_lookup_fmap, Hw. simpl.
    unfold tally. cbn [block_start block_end]. by rewrite range_empty.
  - apply blocks_lookup. rewrite Hidx. split; [lia | done].
  - rewrite list_lookup_fmap.
    assert ((block_of (length v) 0 t <$> seqZ 0 t) !! Z.to_nat (t - 1)
            = Some (Worker 0 (length v) (t - 1))) as ->.
    { apply blocks_lookup. rewrite Hidx. split; [lia | done]. }
    simpl. unfold tally. cbn [block_start block_end]. by rewrite range_whole.
Qed.

Lemma more_threads_than_elements_witness :
  (∀ ws : list worker, reverse ws ≡ₚ ws)
  ∧ is_unsigned 16 ∧ (2 ≤ 5 ≤ INT_MAX)%Z ∧ [1; 7]%Z ≠ []
  ∧ (Z.of_nat (length [1; 7]%Z) < Z.min 5 16)%Z
  ∧ length [1; 7]%Z `div` Z.to_nat (Z.min 5 16) = 0.
Proof.
  assert (∀ ws : list worker, reverse ws ≡ₚ ws) as Hsched
    by (intros ws; apply reverse_Permutation).
  assert (is_unsigned 16) as Hhw by (unfold is_unsigned; lia).
  assert (2 ≤ 5 ≤ INT_MAX)%Z as Hk by (unfold INT_MAX; lia).
  assert ([1; 7]%Z ≠ []) as Hv by discriminate.
  assert (Z.of_nat (length [1; 7]%Z) < Z.min 5 16)%Z as Hmore by (simpl; lia).
  split; [exact Hsched|]. split; [exact Hhw|]. split; [exact Hk|].
  split; [exact Hv|]. split; [exact Hmore|].
  apply (more_threads_than_elements reverse 16 [1; 7]%Z is_divisible_by_7 5
    Hsched Hhw Hk Hv Hmore).
Defined.

End CounterFacts.

(** ** The data generator *)

Module GeneratorFacts.
Import MachineInt Generator.

Section Distribution.

Variable dist : Z → Z → mt19937 → Z * mt19937.

(** Filling positions [done..done+count) of a vector whose first [done]
    positions are filled leaves those alone and writes the next draws. *)
Lemma fill_loop_draws (filled : list Z) (count : nat) (rest : list Z) g :
  length rest = count →
  numbers (fold_left (fill_step dist) (seq (length filled) count)
    {| numbers := filled ++ rest; rng := g |})
  = filled ++ draws dist count g.
Proof.
  revert filled rest g. induction count as [|count IH]; intros filled rest g Hlen.
  { destruct rest; [done | discriminate]. }
  destruct rest as [|r rest]; [discriminate|]. simpl.
  unfold fill_step at 2. simpl.
  destruct (dist 0%Z 1000000%Z g) as [x g'] eqn:Hdraw.
  replace (length filled) with (length filled + 0) at 2 by lia.
  rewrite insert_app_r. simpl.
  replace (S (length filled)) with (length (filled ++ [x]))
    by (rewrite length_app; simpl; lia).
  rewrite (cons_middle x filled rest), app_assoc, IH by (simpl in Hlen; lia).
  by rewrite <- app_assoc.
Qed.

(** The vector returned holds the draws from the engine seeded with [seed],
    in order. *)
Lemma generate_random_vector_draws size seed :
  generate_random_vector dist size seed = draws dist size (mt19937_seed seed).
Proof.
  unfold generate_random_vector.
  apply (fill_loop_draws [] size (replicate size 0%Z)), length_replicate.
Qed.

Lemma draws_length count g : length (draws dist count g) = count.
Proof.
  revert g. induction count as [|count IH]; intros g; [done|].
  simpl. destruct (dist 0%Z 1000000%Z g) as [x g']. simpl. by rewrite IH.
Qed.

Lemma generate_random_vector_length size seed :
  length (generate_random_vector dist size seed) = size.
Proof. rewrite generate_random_vector_draws. apply draws_length. Qed.

(** The engine sees the seed as a 32-bit value. *)
Lemma generate_random_vector_seed_wraps size seed :
  generate_random_vector dist size (to_unsigned seed)
  = generate_random_vector dist size seed.
Proof.
  unfold generate_random_vector, mt19937_seed, to_unsigned, wrap_unsigned.
  by rewrite Z.mod_mod by lia.
Qed.

(** Run from a frame whose distribution was built with the bounds of the
    source, the loop of the call and the loop of [generate_random_vector] do
    the same to the vector and the engine, and leave the bounds alone. *)
Lemma assign_draw_fill_step (l : list nat) (ns : list Z) g :
  let f := fold_left (assign_draw dist) l
             {| frame_numbers := ns; frame_rng := g;
                frame_dist := (0%Z, 1000000%Z) |} in
  let st := fold_left (fill_step dist) l {| numbers := ns; rng := g |} in
  frame_numbers f = numbers st ∧ frame_rng f = rng st
  ∧ frame_dist f = (0%Z, 1000000%Z).
Proof.
  cbv zeta. revert ns g. induction l as [|i l IH]; intros ns g; [done|].
  cbn [fold_left].
  assert (∃ x g',
    assign_draw dist
      {| frame_numbers := ns; frame_rng := g; frame_dist := (0%Z, 1000000%Z) |} i
    = {| frame_numbers := <[i := x]> ns; frame_rng := g';
         frame_dist := (0%Z, 1000000%Z) |}
    ∧ fill_step dist {| numbers := ns; rng := g |} i
      = {| numbers := <[i := x]> ns; rng := g' |}) as (x & g' & -> & ->).
  { unfold assign_draw, fill_step.
    cbn [frame_dist frame_rng frame_numbers numbers rng fst snd].
    destruct (dist 0%Z 1000000%Z g) as [x g']. by eexists _, _. }
  apply IH.
Qed.

(** Whatever the frame held, the call returns the vector that
    [generate_random_vector] describes. *)
Lemma generate_random_vector_call_vector f size seed :
  (generate_random_vector_call dist f size seed).1
  = generate_random_vector dist size seed.
Proof.
  unfold generate_random_vector_call, generate_random_vector.
  unfold construct_dist, construct_rng, construct_numbers.
  cbn [frame_numbers frame_rng frame_dist fst]. rewrite length_replicate.
  apply assign_draw_fill_step.
Qed.

(** C8. For every length and seed, two calls of [generate_random_vector]
    with the identical (length, seed) pair produce identical sequences,
    whatever their frames hold when they start (for instance the vector,
    engine and distribution an earlier call left behind), and whatever the
    library's distribution computes from the engine: the constructors
    overwrite all three locals before the loop reads any of them. *)
Theorem generate_random_vector_same_pair f1 f2 size1 seed1 size2 seed2 :
  size1 = size2 → seed1 = seed2 →
  (generate_random_vector_call dist f1 size1 seed1).1
  = (generate_random_vector_call dist f2 size2 seed2).1.
Proof.
  intros Hsize Hseed. rewrite !generate_random_vector_call_vector.
  by rewrite Hsize, Hseed.
Qed.

End Distribution.

(** The engine agrees with the reference values of [mt19937]: the first
    output under the default seed, and the 10000th. *)
Example mt19937_first_output :
  fst (mt19937_next (mt19937_seed 5489)) = 3499211612%Z.
Proof. vm_compute. reflexivity. Qed.

Example mt19937_10000th_output :
  fst (mt19937_next
    (Nat.iter 9999 (λ g, snd (mt19937_next g)) (mt19937_seed 5489)))
  = 4123659995%Z.
Proof. vm_compute. reflexivity. Qed.

Lemma generate_random_vector_same_pair_witness :
  3 = 3 ∧ 1%Z = 1%Z
  ∧ (generate_random_vector_call modulo_distribution
       {| frame_numbers := [5; 5]%Z; frame_rng := mt19937_seed 7;
          frame_dist := (2, 3)%Z |} 3 1).1
    = (generate_random_vector_call modulo_distribution
         (generate_random_vector_call modulo_distribution
            {| frame_numbers := []; frame_rng := mt19937_seed 0;
               frame_dist := (0, 0)%Z |} 4 99).2 3 1).1.
Proof.
  split; [reflexivity|]. split; [reflexivity|].
  apply (generate_random_vector_same_pair modulo_distribution _ _ 3 1 3 1);
    reflexivity.
Defined.

End GeneratorFacts.

(** ** The experiment runner *)

Module RunnerFacts.
Import MachineInt MachineIntFacts Counter CounterFacts Generator Runner.

(** *** Processes *)

Lemma bind_completed {A B} (m : process A) (k : A → process B) out a :
  m = (out, Some a) → bind m k = (out ++ output (k a), snd (k a)).
Proof. intros ->. unfold bind, output. by destruct (k a). Qed.

Lemma experiment_blocks_app out1 out2 :
  experiment_blocks (out1 ++ out2) = experiment_blocks out1 ++ experiment_blocks out2.
Proof. apply omap_app. Qed.

Lemma swept_thread_counts_app out1 out2 :
  swept_thread_counts (out1 ++ out2)
  = swept_thread_counts out1 ++ swept_thread_counts out2.
Proof. apply omap_app. Qed.

Lemma reported_best_app out1 out2 :
  reported_best (out1 ++ out2) = reported_best out1 ++ reported_best out2.
Proof. apply omap_app. Qed.

(** *** The sweep *)

(** The pure part of the sweep: [track_best] along the thread counts. *)
Lemma for_each_sweep_step e numbers label p ks st :
  (∀ k, k ∈ ks →
     is_Some (result_of
       (custom_parallel_count (hardware_concurrency e) numbers p k))) →
  for_each (sweep_step e numbers label p) ks st
  = ((λ k, ThreadsTime k (elapsed_ms e label (Custom k))) <$> ks,
     Some (fold_left
       (λ st k, track_best st k (elapsed_ms e label (Custom k))) ks st)).
Proof.
  revert st. induction ks as [|k ks IH]; intros st Hret; [done|].
  assert (is_Some (result_of
    (custom_parallel_count (hardware_concurrency e) numbers p k))) as [r Hr]
    by (apply Hret; left).
  cbn [for_each fold_left fmap list_fmap].
  rewrite (bind_completed _ _
    [ThreadsTime k (elapsed_ms e label (Custom k))]
    (track_best st k (elapsed_ms e label (Custom k)))).
  - rewrite IH by (intros k' Hk'; apply Hret; by right). done.
  - unfold sweep_step, measure_time_ms.
    destruct (custom_parallel_count (hardware_concurrency e) numbers p k);
      [done | discriminate].
Qed.

(** The calls of the sweep return when the hardware reports at least one
    execution unit. *)
Lemma sweep_calls_return hw numbers p k :
  is_unsigned hw → (1 ≤ hw)%Z → is_int k →
  is_Some (result_of (custom_parallel_count hw numbers p k)).
Proof.
  intros Hhw Hhw1 Hk. exists (count_if p numbers).
  by apply (custom_parallel_count_scheduled_correct id).
Qed.

Lemma hardware_threads_of_positive e :
  (1 ≤ hardware_concurrency e < 2 ^ 30)%Z →
  hardware_threads_of e = hardware_concurrency e.
Proof.
  intros Hhw. unfold hardware_threads_of.
  rewrite to_int_id by (unfold is_int, INT_MAX; lia).
  destruct (Z.eqb_spec (hardware_concurrency e) 0); [lia | done].
Qed.

Lemma hardware_threads_of_zero e :
  hardware_concurrency e = 0%Z → hardware_threads_of e = 4%Z.
Proof. intros Hhw. unfold hardware_threads_of. by rewrite Hhw. Qed.

(** What [run_experiment] prints and returns when every call of the sweep
    returns. *)
Lemma run_experiment_output e numbers label p :
  (∀ k, k ∈ seqZ 1 (2 * hardware_threads_of e) →
     is_Some (result_of
       (custom_parallel_count (hardware_concurrency e) numbers p k))) →
  run_experiment e numbers label p
  = ([ExperimentHeader label;
      StrategyTime NoPolicy (elapsed_ms e label NoPolicy);
      StrategyTime ExecutionSeq (elapsed_ms e label ExecutionSeq);
      StrategyTime ExecutionPar (elapsed_ms e label ExecutionPar);
      StrategyTime ExecutionParUnseq (elapsed_ms e label ExecutionParUnseq);
      CustomHeader]
     ++ ((λ k, ThreadsTime k (elapsed_ms e label (Custom k)))
           <$> seqZ 1 (2 * hardware_threads_of e))
     ++ [BestK
           (best_threads (sweep_result (λ k, elapsed_ms e label (Custom k))
              (seqZ 1 (2 * hardware_threads_of e))))
           (hardware_threads_of e)],
     Some ()).
Proof.
  intros Hret. unfold run_experiment.
  rewrite (for_each_sweep_step e numbers label p _ _ Hret).
  done.
Qed.

(** The sweep keeps the first thread count that reaches the least time. *)
Lemma sweep_first_minimum (timing : Z → Z) (m : nat) :
  (∀ k, (1 ≤ k ≤ Z.of_nat m)%Z → (timing k ≤ LLONG_MAX)%Z) →
  let st := sweep_result timing (seqZ 1 (Z.of_nat m)) in
  (∀ j, (1 ≤ j ≤ Z.of_nat m)%Z → (best_time st ≤ timing j)%Z)
  ∧ (∀ j, (1 ≤ j < best_threads st)%Z → (best_time st < timing j)%Z)
  ∧ (((1 ≤ best_threads st ≤ Z.of_nat m)%Z ∧ best_time st = timing (best_threads st))
     ∨ (best_threads st = 1%Z ∧ best_time st = LLONG_MAX)).
Proof.
  cbv zeta. induction m as [|m IH]; intros Hbound.
  { change (Z.of_nat 0) with 0%Z. rewrite seqZ_nil by lia. cbn.
    split; [intros; lia|]. split; [intros; lia | by right]. }
  unfold sweep_result in *. rewrite seqZ_S, fold_left_app. simpl.
  destruct IH as (Hmin & Hfirst & Hbest); [intros k Hk; apply Hbound; lia|].
  set (st := fold_left _ (seqZ 1 (Z.of_nat m)) _) in *.
  replace (1 + Z.of_nat m)%Z with (Z.of_nat (S m)) by lia.
  specialize (Hbound (Z.of_nat (S m)) ltac:(lia)).
  unfold track_best.
  destruct (Z.ltb_spec (timing (Z.of_nat (S m))) (best_time st)) as [Hlt|Hge]; simpl.
  - split; [|split].
    + intros j Hj. destruct (decide (j = Z.of_nat (S m))) as [->|Hne]; [lia|].
      specialize (Hmin j ltac:(lia)). lia.
    + intros j Hj. specialize (Hmin j ltac:(lia)). lia.
    + left. split; [lia | done].
  - split; [|split].
    + intros j Hj. destruct (decide (j = Z.of_nat (S m))) as [->|Hne]; [lia|].
      apply Hmin. lia.
    + done.
    + destruct Hbest as [[Hrange Heq]|Hinit]; [left | by right].
      split; [lia | done].
Qed.

Lemma experiment_blocks_threads_times (f : Z → Z) ks :
  experiment_blocks ((λ k, ThreadsTime k (f k)) <$> ks) = [].
Proof. induction ks as [|k ks IH]; [done | by simpl]. Qed.

Lemma reported_best_threads_times (f : Z → Z) ks :
  reported_best ((λ k, ThreadsTime k (f k)) <$> ks) = [].
Proof. induction ks as [|k ks IH]; [done | by simpl]. Qed.

Lemma swept_thread_counts_threads_times (f : Z → Z) ks :
  swept_thread_counts ((λ k, ThreadsTime k (f k)) <$> ks) = ks.
Proof. induction ks as [|k ks IH]; [done | simpl; by f_equal]. Qed.

(** The calls of the sweep return when the hardware reports at least one
    thread (and fewer than [2^30]), and also when the sequence is empty. *)
Lemma run_experiment_returns e numbers p :
  (0 ≤ hardware_concurrency e < 2 ^ 30)%Z →
  numbers = [] ∨ (1 ≤ hardware_concurrency e)%Z →
  ∀ k, k ∈ seqZ 1 (2 * hardware_threads_of e) →
    is_Some (result_of
      (custom_parallel_count (hardware_concurrency e) numbers p k)).
Proof.
  intros Hhw [->|Hhw1] k Hk; [by eexists|].
  rewrite hardware_threads_of_positive in Hk by lia.
  apply elem_of_seqZ in Hk.
  apply sweep_calls_return; unfold is_unsigned, is_int, INT_MAX; lia.
Qed.

Lemma hardware_threads_of_range e :
  (0 ≤ hardware_concurrency e < 2 ^ 30)%Z →
  (1 ≤ hardware_threads_of e < 2 ^ 30)%Z.
Proof.
  intros Hhw. destruct (decide (hardware_concurrency e = 0%Z)) as [Hz|Hnz].
  - rewrite hardware_threads_of_zero by done. lia.
  - rewrite hardware_threads_of_positive by lia. lia.
Qed.

(** It then reports a timing for each thread count from 1 to twice the
    hardware concurrency, in increasing order. *)
Lemma run_experiment_sweep e numbers label p :
  (1 ≤ hardware_concurrency e < 2 ^ 30)%Z →
  completed (run_experiment e numbers label p) = true
  ∧ swept_thread_counts (output (run_experiment e numbers label p))
    = seqZ 1 (2 * hardware_concurrency e)
  ∧ experiment_blocks (output (run_experiment e numbers label p)) = [label].
Proof.
  intros Hhw.
  rewrite run_experiment_output by (apply run_experiment_returns; [lia | right; lia]).
  rewrite hardware_threads_of_positive by done.
  split; [done|]. unfold output. cbn [fst].
  rewrite !swept_thread_counts_app, !experiment_blocks_app.
  rewrite swept_thread_counts_threads_times, experiment_blocks_threads_times.
  split; [|done]. simpl. by rewrite app_nil_r.
Qed.

(** With no hardware concurrency reported and an empty sequence (where the
    counter never divides), the sweep runs over 1 to 8. *)
Lemma run_experiment_sweep_fallback e label p :
  hardware_concurrency e = 0%Z →
  completed (run_experiment e [] label p) = true
  ∧ swept_thread_counts (output (run_experiment e [] label p)) = seqZ 1 8.
Proof.
  intros Hhw.
  rewrite run_experiment_output by (intros k _; by eexists).
  rewrite hardware_threads_of_zero by done.
  split; [done|]. unfold output. cbn [fst].
  rewrite !swept_thread_counts_app, swept_thread_counts_threads_times.
  cbn [swept_thread_counts omap list_omap app]. by rewrite app_nil_r.
Qed.

(** *** Claims about the sweep *)

(** The reading in which the process stops is the one of [run_experiment]. *)
Lemma run_experiment_under_None e numbers label p :
  run_experiment_under None e numbers label p = run_experiment e numbers label p.
Proof. reflexivity. Qed.

Lemma for_each_sweep_step_under (undefined : option nat) e numbers label p ks st :
  (∀ k, k ∈ ks →
     is_Some (result_of
       (custom_parallel_count (hardware_concurrency e) numbers p k))
     ∨ is_Some undefined) →
  for_each (sweep_step_under undefined e numbers label p) ks st
  = ((λ k, ThreadsTime k (elapsed_ms e label (Custom k))) <$> ks,
     Some (fold_left
       (λ st k, track_best st k (elapsed_ms e label (Custom k))) ks st)).
Proof.
  revert st. induction ks as [|k ks IH]; intros st Hret; [done|].
  cbn [for_each fold_left fmap list_fmap].
  rewrite (bind_completed _ _
    [ThreadsTime k (elapsed_ms e label (Custom k))]
    (track_best st k (elapsed_ms e label (Custom k)))).
  - rewrite IH by (intros k' Hk'; apply Hret; by right). done.
  - unfold sweep_step_under, measure_time_ms.
    destruct (Hret k ltac:(left)) as [[r Hr]|[r ->]];
      destruct (custom_parallel_count (hardware_concurrency e) numbers p k);
      try done; discriminate.
Qed.

Lemma run_experiment_under_output (undefined : option nat) e numbers label p :
  (∀ k, k ∈ seqZ 1 (2 * hardware_threads_of e) →
     is_Some (result_of
       (custom_parallel_count (hardware_concurrency e) numbers p k))
     ∨ is_Some undefined) →
  run_experiment_under undefined e numbers label p
  = ([ExperimentHeader label;
      StrategyTime NoPolicy (elapsed_ms e label NoPolicy);
      StrategyTime ExecutionSeq (elapsed_ms e label ExecutionSeq);
      StrategyTime ExecutionPar (elapsed_ms e label ExecutionPar);
      StrategyTime ExecutionParUnseq (elapsed_ms e label ExecutionParUnseq);
      CustomHeader]
     ++ ((λ k, ThreadsTime k (elapsed_ms e label (Custom k)))
           <$> seqZ 1 (2 * hardware_threads_of e))
     ++ [BestK
           (best_threads (sweep_result (λ k, elapsed_ms e label (Custom k))
              (seqZ 1 (2 * hardware_threads_of e))))
           (hardware_threads_of e)],
     Some ()).
Proof.
  intros Hret. unfold run_experiment_under.
  rewrite (for_each_sweep_step_under undefined e numbers label p _ _ Hret).
  done.
Qed.

(** The calls of the sweep return, or the reading lets them go on. *)
Lemma run_experiment_under_returns (undefined : option nat) e numbers p :
  (0 ≤ hardware_concurrency e < 2 ^ 30)%Z →
  numbers = [] ∨ (1 ≤ hardware_concurrency e)%Z ∨ is_Some undefined →
  ∀ k, k ∈ seqZ 1 (2 * hardware_threads_of e) →
    is_Some (result_of
      (custom_parallel_count (hardware_concurrency e) numbers p k))
    ∨ is_Some undefined.
Proof.
  intros Hhw [Hv|[Hhw1|Hu]] k Hk; [left|left|by right].
  - by apply run_experiment_returns; [|left|].
  - by apply run_experiment_returns; [|right|].
Qed.



(** C7. Whenever the sweep runs to its end (at least one hardware thread
    reported, or an empty sequence), the thread count the runner reports as
    best is within the sweep [1 .. 2 * hardware_threads], its time is the
    least of the sweep, and every smaller thread count took strictly longer:
    it is the smallest thread count whose time equals the minimum.  This
    holds for every clock, that is for any timings met in increasing order of
    thread count. *)
Theorem best_thread_count_is_first_minimum e numbers label p :
  (0 ≤ hardware_concurrency e < 2 ^ 30)%Z →
  numbers = [] ∨ (1 ≤ hardware_concurrency e)%Z →
  (∀ k, (1 ≤ k ≤ 2 * hardware_threads_of e)%Z →
     (elapsed_ms e label (Custom k) ≤ LLONG_MAX)%Z) →
  ∃ best,
    reported_best (output (run_experiment e numbers label p)) = [best]
    ∧ (1 ≤ best ≤ 2 * hardware_threads_of e)%Z
    ∧ (∀ j, (1 ≤ j ≤ 2 * hardware_threads_of e)%Z →
         (elapsed_ms e label (Custom best) ≤ elapsed_ms e label (Custom j))%Z)
    ∧ (∀ j, (1 ≤ j < best)%Z →
         (elapsed_ms e label (Custom best) < elapsed_ms e label (Custom j))%Z).
Proof.
  intros Hhw Hruns Hbound.
  rewrite run_experiment_output by (by apply run_experiment_returns).
  pose proof (hardware_threads_of_range e Hhw) as Hht.
  set (timing := λ k, elapsed_ms e label (Custom k)).
  set (m := Z.to_nat (2 * hardware_threads_of e)).
  assert (2 * hardware_threads_of e = Z.of_nat m)%Z as Hm by lia.
  rewrite Hm in *.
  destruct (sweep_first_minimum timing m Hbound) as (Hmin & Hfirst & Hbest).
  set (st := sweep_result timing (seqZ 1 (Z.of_nat m))) in *.
  exists (best_threads st).
  assert ((1 ≤ best_threads st ≤ Z.of_nat m)%Z
          ∧ best_time st = timing (best_threads st)) as [Hrange Htime].
  { destruct Hbest as [?|[H1 Hmax]]; [done|].
    split; [lia|]. rewrite H1.
    specialize (Hmin 1%Z ltac:(lia)). specialize (Hbound 1%Z ltac:(lia)).
    fold (timing 1%Z) in Hbound. lia. }
  split; [|split; [done|split]].
  - unfold output. cbn [fst].
    rewrite !reported_best_app, reported_best_threads_times. done.
  - intros j Hj. fold (timing (best_threads st)) (timing j).
    rewrite <- Htime. by apply Hmin.
  - intros j Hj. fold (timing (best_threads st)) (timing j).
    rewrite <- Htime. by apply Hfirst.
Qed.

Lemma best_thread_count_is_first_minimum_witness :
  (0 ≤ hardware_concurrency two_threads < 2 ^ 30)%Z
  ∧ ([1; 7; 14]%Z = [] ∨ (1 ≤ hardware_concurrency two_threads)%Z)
  ∧ ∃ best,
      reported_best
        (output (run_experiment two_threads [1; 7; 14]%Z "x % 7 == 0" is_divisible_by_7))
      = [best]
      ∧ (1 ≤ best ≤ 2 * hardware_threads_of two_threads)%Z
      ∧ (∀ j, (1 ≤ j ≤ 2 * hardware_threads_of two_threads)%Z →
           (elapsed_ms two_threads "x % 7 == 0" (Custom best)
            ≤ elapsed_ms two_threads "x % 7 == 0" (Custom j))%Z)
      ∧ (∀ j, (1 ≤ j < best)%Z →
           (elapsed_ms two_threads "x % 7 == 0" (Custom best)
            < elapsed_ms two_threads "x % 7 == 0" (Custom j))%Z).
Proof.
  assert (0 ≤ hardware_concurrency two_threads < 2 ^ 30)%Z as Hhw
    by (simpl; lia).
  assert ([1; 7; 14]%Z = [] ∨ (1 ≤ hardware_concurrency two_threads)%Z) as Hruns
    by (right; simpl; lia).
  split; [exact Hhw|]. split; [exact Hruns|].
  apply (best_thread_count_is_first_minimum two_threads [1; 7; 14]%Z
    "x % 7 == 0" is_divisible_by_7 Hhw Hruns).
  intros k _. simpl. unfold LLONG_MAX. destruct (k =? 1)%Z; lia.
Defined.

(** *** Claims about the entry point *)

(** The labels of the experiments [main] runs, in order. *)
Lemma main_experiment_blocks dist e :
  (1 ≤ hardware_concurrency e < 2 ^ 30)%Z →
  completed (main dist e) = true
  ∧ experiment_blocks (output (main dist e))
    = ["Dataset N=100000, x > 500000"; "Dataset N=100000, x % 7 == 0";
       "Dataset N=1000000, x > 500000"; "Dataset N=1000000, x % 7 == 0";
       "Dataset N=5000000, x > 500000"; "Dataset N=5000000, x % 7 == 0"].
Proof.
  intros Hhw.
  assert (∀ data_size, ∃ out,
    main_step dist e () data_size = (out, Some ())
    ∧ experiment_blocks out
      = ["Dataset N=" +:+ to_string data_size +:+ ", x > 500000";
         "Dataset N=" +:+ to_string data_size +:+ ", x % 7 == 0"])
    as Hstep.
  { intros data_size. unfold main_step.
    set (numbers := generate_random_vector _ _ _). clearbody numbers.
    set (label1 := "Dataset N=" +:+ to_string data_size +:+ ", x > 500000").
    set (label2 := "Dataset N=" +:+ to_string data_size +:+ ", x % 7 == 0").
    clearbody label1 label2.
    destruct (run_experiment_sweep e numbers label1 is_greater_than_500k Hhw)
      as (Hc1 & _ & Hb1).
    destruct (run_experiment_sweep e numbers label2 is_divisible_by_7 Hhw)
      as (Hc2 & _ & Hb2).
    destruct (run_experiment e numbers label1 is_greater_than_500k)
      as [out1 [[]|]]; [|discriminate].
    destruct (run_experiment e numbers label2 is_divisible_by_7)
      as [out2 [[]|]]; [|discriminate].
    exists (out1 ++ out2). split; [done|].
    rewrite experiment_blocks_app. unfold output in *. simpl in Hb1, Hb2.
    by rewrite Hb1, Hb2. }
  destruct (Hstep 100000%Z) as (out1 & H1 & Hb1).
  destruct (Hstep 1000000%Z) as (out2 & H2 & Hb2).
  destruct (Hstep 5000000%Z) as (out3 & H3 & Hb3).
  assert (for_each (main_step dist e) data_sizes ()
          = (out1 ++ out2 ++ out3, Some ())) as Hloop.
  { unfold data_sizes. cbn [for_each].
    rewrite (bind_completed _ _ out1 () H1).
    rewrite (bind_completed _ _ out2 () H2).
    rewrite (bind_completed _ _ out3 () H3).
    unfold output, ret. cbn [fst snd]. by rewrite app_nil_r. }
  unfold main. rewrite Hloop. split; [done|].
  unfold output, bind, print, ret. cbn [fst app].
  change (experiment_blocks
            (CppVersion :: Build :: HardwareThreads (hardware_concurrency e)
               :: (out1 ++ out2 ++ out3) ++ []))
    with (experiment_blocks ((out1 ++ out2 ++ out3) ++ [])).
  rewrite !experiment_blocks_app, Hb1, Hb2, Hb3. done.
Qed.

(** C3, as stated, fails: on two hardware threads a run executes six
    experiment blocks, not eight. *)
Lemma main_runs_not_eight_blocks :
  length (experiment_blocks (output (main modulo_distribution two_threads))) ≠ 8.
Proof.
  destruct (main_experiment_blocks modulo_distribution two_threads) as [_ ->].
  - simpl. lia.
  - simpl. discriminate.
Qed.

(** C3, amended. With at least one hardware thread, a single run of the
    program completes and executes exactly six experiment blocks: the three
    data sizes 100,000, 1,000,000 and 5,000,000, each with the two
    predicates, in that order. *)
Theorem main_runs_six_blocks dist e :
  (1 ≤ hardware_concurrency e < 2 ^ 30)%Z →
  completed (main dist e) = true
  ∧ length (experiment_blocks (output (main dist e))) = 6
  ∧ experiment_blocks (output (main dist e))
    = data_size ← data_sizes;
      ["Dataset N=" +:+ to_string data_size +:+ ", x > 500000";
       "Dataset N=" +:+ to_string data_size +:+ ", x % 7 == 0"].
Proof.
  intros Hhw. destruct (main_experiment_blocks dist e Hhw) as [Hc ->].
  by repeat split.
Qed.

Lemma main_runs_six_blocks_witness :
  (1 ≤ hardware_concurrency two_threads < 2 ^ 30)%Z
  ∧ length (experiment_blocks (output (main modulo_distribution two_threads))) = 6.
Proof.
  assert (1 ≤ hardware_concurrency two_threads < 2 ^ 30)%Z as Hhw
    by (simpl; lia).
  split; [exact Hhw|].
  apply (main_runs_six_blocks modulo_distribution two_threads Hhw).
Defined.

End RunnerFacts.

(** * Further properties *)

(** ** The parallel counter *)

Module CounterExtras.
Import MachineInt MachineIntFacts Counter CounterFacts.

(** X1. The order in which the workers commit their tallies does not
    matter: under every reordering of the spawned workers the call has the
    same outcome (workers, partial-result vector and result, or the division
    by zero) as
    when they commit in spawn order, for every input. *)
Theorem commit_order_irrelevant schedule hw (v : list Z) p k :
  (∀ ws, schedule ws ≡ₚ ws) →
  custom_parallel_count_scheduled schedule hw v p k
  = custom_parallel_count hw v p k.
Proof.
  intros Hsched. unfold custom_parallel_count, custom_parallel_count_scheduled.
  destruct ((length v =? 0) || (k <=? 1)%Z); [done|].
  destruct (to_size_t (clamp_threads hw k) =? 0)%Z; [done|].
  set (st := spawn_loop _ _ _).
  assert (join_all v p (schedule (threads st))
            (replicate (Z.to_nat (clamp_threads hw k)) 0)
          = join_all v p (id (threads st))
              (replicate (Z.to_nat (clamp_threads hw k)) 0)) as ->; [|done].
  apply join_all_permutation; [|apply Hsched].
  unfold st. rewrite spawn_loop_threads. apply block_of_slots_NoDup.
Qed.

Lemma commit_order_irrelevant_witness :
  (∀ ws : list worker, reverse ws ≡ₚ ws)
  ∧ custom_parallel_count_scheduled reverse 4
      [1; 7; 14; 500001; 21; 3; 49]%Z is_divisible_by_7 3
    = custom_parallel_count 4 [1; 7; 14; 500001; 21; 3; 49]%Z is_divisible_by_7 3.
Proof.
  assert (∀ ws : list worker, reverse ws ≡ₚ ws) as Hsched
    by (intros ws; apply reverse_Permutation).
  split; [exact Hsched|].
  apply (commit_order_irrelevant reverse 4 _ is_divisible_by_7 3 Hsched).
Defined.

(** X2. Whenever the hardware reports at least one thread, the call returns
    the sequential count, for every sequence, every predicate, every
    requested thread count an [int] can hold (zero and negative ones
    included) and every commit order; the count never exceeds the length of
    the sequence. *)
Theorem counts_like_sequential schedule hw (v : list Z) p k :
  (∀ ws, schedule ws ≡ₚ ws) →
  is_unsigned hw → (1 ≤ hw)%Z → is_int k →
  ∃ r, result_of (custom_parallel_count_scheduled schedule hw v p k) = Some r
       ∧ r = count_if p v ∧ r ≤ length v.
Proof.
  intros Hsched Hhw Hhw1 Hk. exists (count_if p v).
  split; [by apply custom_parallel_count_scheduled_correct|].
  split; [done | apply count_if_le_length].
Qed.

Lemma counts_like_sequential_witness :
  (∀ ws : list worker, reverse ws ≡ₚ ws)
  ∧ is_unsigned 4 ∧ (1 ≤ 4)%Z ∧ is_int (-3)
  ∧ ∃ r, result_of (custom_parallel_count_scheduled reverse 4
             [1; 7; 14]%Z is_divisible_by_7 (-3)) = Some r
         ∧ r = count_if is_divisible_by_7 [1; 7; 14]%Z ∧ r ≤ length [1; 7; 14]%Z.
Proof.
  assert (∀ ws : list worker, reverse ws ≡ₚ ws) as Hsched
    by (intros ws; apply reverse_Permutation).
  assert (is_unsigned 4) as Hhw by (unfold is_unsigned; lia).
  assert (1 ≤ 4)%Z as Hhw1 by lia.
  assert (is_int (-3)) as Hk by (unfold is_int, INT_MAX; lia).
  split; [exact Hsched|]. split; [exact Hhw|]. split; [exact Hhw1|].
  split; [exact Hk|].
  apply (counts_like_sequential reverse 4 [1; 7; 14]%Z is_divisible_by_7 (-3)
    Hsched Hhw Hhw1 Hk).
Defined.

(** X3. When workers are spawned (non-empty sequence, [K >= 2], at least one
    hardware thread), the partial-result vector has one slot per worker, the
    [i]-th worker owns slot [i], and after the join slot [i] holds the count
    of the predicate over that worker's own block: no slot keeps its initial
    0 by omission and none is overwritten by another worker. *)
Theorem slots_hold_own_tallies schedule hw (v : list Z) p k :
  (∀ ws, schedule ws ≡ₚ ws) →
  is_unsigned hw → (1 ≤ hw)%Z → (2 ≤ k ≤ INT_MAX)%Z → v ≠ [] →
  let o := custom_parallel_count_scheduled schedule hw v p k in
  length (partials_of o) = length (spawned_of o)
  ∧ ∀ (i : nat) w, spawned_of o !! i = Some w →
      slot w = Z.of_nat i
      ∧ partials_of o !! i
        = Some (count_if p (range v (block_start w) (block_end w))).
Proof.
  intros Hsched Hhw Hhw1 Hk Hv o. unfold o.
  rewrite custom_parallel_count_scheduled_spawns by done.
  cbn [partials_of spawned_of]. split; [by rewrite length_fmap|].
  intros i w Hw. split.
  - apply blocks_lookup in Hw as [_ ->]. done.
  - by rewrite list_lookup_fmap, Hw.
Qed.

Lemma slots_hold_own_tallies_witness :
  (∀ ws : list worker, reverse ws ≡ₚ ws)
  ∧ is_unsigned 4 ∧ (1 ≤ 4)%Z ∧ (2 ≤ 3 ≤ INT_MAX)%Z ∧ [1; 7; 14; 21]%Z ≠ []
  ∧ length (partials_of (custom_parallel_count_scheduled reverse 4
              [1; 7; 14; 21]%Z is_divisible_by_7 3))
    = length (spawned_of (custom_parallel_count_scheduled reverse 4
                [1; 7; 14; 21]%Z is_divisible_by_7 3)).
Proof.
  assert (∀ ws : list worker, reverse ws ≡ₚ ws) as Hsched
    by (intros ws; apply reverse_Permutation).
  assert (is_unsigned 4) as Hhw by (unfold is_unsigned; lia).
  assert (1 ≤ 4)%Z as Hhw1 by lia.
  assert (2 ≤ 3 ≤ INT_MAX)%Z as Hk by (unfold INT_MAX; lia).
  assert ([1; 7; 14; 21]%Z ≠ []) as Hv by discriminate.
  split; [exact Hsched|]. split; [exact Hhw|]. split; [exact Hhw1|].
  split; [exact Hk|]. split; [exact Hv|].
  apply (slots_hold_own_tallies reverse 4 [1; 7; 14; 21]%Z is_divisible_by_7 3
    Hsched Hhw Hhw1 Hk Hv).
Defined.



(** X5. On hardware that reports a single thread, a request for two or more
    threads on a non-empty sequence does not take the single-threaded
    fallback: it spawns exactly one worker, whose block is the whole
    sequence and whose slot receives the whole count. *)
Theorem single_hardware_thread schedule (v : list Z) p k :
  (∀ ws, schedule ws ≡ₚ ws) → (2 ≤ k ≤ INT_MAX)%Z → v ≠ [] →
  custom_parallel_count_scheduled schedule 1 v p k
  = Returned [Worker 0 (length v) 0] [count_if p v] (count_if p v).
Proof.
  intros Hsched Hk Hv.
  rewrite custom_parallel_count_scheduled_spawns
    by (done || (unfold is_unsigned; lia)).
  rewrite Z.min_r by lia.
  change (seqZ 0 1) with [0%Z]. cbn [fmap list_fmap].
  unfold tally, block_of. cbn [block_start block_end Z.eqb Z.sub Z.add Z.opp Z.pos_sub].
  change (Z.to_nat 0 * (length v `div` Z.to_nat 1)) with 0.
  by rewrite range_whole.
Qed.

Lemma single_hardware_thread_witness :
  (∀ ws : list worker, reverse ws ≡ₚ ws) ∧ (2 ≤ 8 ≤ INT_MAX)%Z ∧ [7; 3]%Z ≠ []
  ∧ custom_parallel_count_scheduled reverse 1 [7; 3]%Z is_divisible_by_7 8
    = Returned [Worker 0 (length [7; 3]%Z) 0]
        [count_if is_divisible_by_7 [7; 3]%Z] (count_if is_divisible_by_7 [7; 3]%Z).
Proof.
  assert (∀ ws : list worker, reverse ws ≡ₚ ws) as Hsched
    by (intros ws; apply reverse_Permutation).
  assert (2 ≤ 8 ≤ INT_MAX)%Z as Hk by (unfold INT_MAX; lia).
  assert ([7; 3]%Z ≠ []) as Hv by discriminate.
  split; [exact Hsched|]. split; [exact Hk|]. split; [exact Hv|].
  apply (single_hardware_thread reverse [7; 3]%Z is_divisible_by_7 8 Hsched Hk Hv).
Defined.

(** X6. The divisor of [total_size / num_threads] is zero exactly when the
    sequence is non-empty, at least two threads are requested and the
    hardware reports no concurrency; these are the calls that get to a
    division by zero.  On every other input of the types' ranges the call
    returns, and whenever it divides, the divisor is the minimum of the
    request and the hardware concurrency. *)
Theorem zero_divisor_iff schedule hw (v : list Z) p k :
  is_unsigned hw → is_int k →
  (divisor hw v k = Some 0%Z ↔ v ≠ [] ∧ (2 ≤ k)%Z ∧ hw = 0%Z)
  ∧ (divisor hw v k = Some 0%Z
     ↔ custom_parallel_count_scheduled schedule hw v p k = DivisionByZero)
  ∧ (divisor hw v k ≠ Some 0%Z →
     ∃ ws pr r,
       custom_parallel_count_scheduled schedule hw v p k = Returned ws pr r)
  ∧ (∀ d, divisor hw v k = Some d → d = Z.min k hw).
Proof.
  intros Hhw Hk. unfold is_unsigned, is_int, INT_MAX in *.
  unfold divisor, custom_parallel_count_scheduled.
  destruct (Nat.eqb_spec (length v) 0) as [Hlen|Hlen].
  { destruct v; [|discriminate]. simpl.
    split; [split; [discriminate | by intros [? _]]|].
    split; [split; discriminate|]. split; [by eexists _, _, _ | discriminate]. }
  assert (v ≠ []) as Hv by (by intros ->).
  destruct (Z.leb_spec k 1) as [Hle|Hgt]; cbn [orb].
  { split; [split; [discriminate | lia]|].
    split; [split; discriminate|]. split; [by eexists _, _, _ | discriminate]. }
  rewrite clamp_threads_min by (unfold is_unsigned, INT_MAX; lia).
  rewrite to_size_t_id by lia.
  destruct (Z.eqb_spec (Z.min k hw) 0) as [Hz|Hnz].
  - rewrite Hz. split; [split; [intros _; split; [done | lia] | done]|].
    split; [done|]. split; [done|]. intros d [= <-]. done.
  - split; [split; [intros [= ?]; lia | lia]|].
    split; [split; [intros [= ?]; lia | discriminate]|].
    split; [by eexists _, _, _|]. by intros d [= <-].
Qed.

Lemma zero_divisor_iff_witness :
  is_unsigned 0 ∧ is_int 2
  ∧ (divisor 0 [5]%Z 2 = Some 0%Z ↔ [5]%Z ≠ [] ∧ (2 ≤ 2)%Z ∧ 0%Z = 0%Z).
Proof.
  assert (is_unsigned 0) as Hhw by (unfold is_unsigned; lia).
  assert (is_int 2) as Hk by (unfold is_int, INT_MAX; lia).
  split; [exact Hhw|]. split; [exact Hk|].
  apply (zero_divisor_iff id 0 [5]%Z is_greater_than_500k 2 Hhw Hk).
Defined.

(** X7. Asking for more threads than the hardware reports is the same as
    asking for exactly that many: with at least two hardware threads, every
    request [K] at or above the hardware concurrency gives the same workers,
    the same partial results and the same result as [K] equal to it. *)
Theorem requests_above_limit_coincide schedule hw (v : list Z) p k :
  (2 ≤ hw)%Z → (hw ≤ k ≤ INT_MAX)%Z →
  custom_parallel_count_scheduled schedule hw v p k
  = custom_parallel_count_scheduled schedule hw v p hw.
Proof.
  intros Hhw Hk. unfold custom_parallel_count_scheduled.
  destruct (length v =? 0); [done|].
  destruct (Z.leb_spec k 1) as [?|_]; [lia|].
  destruct (Z.leb_spec hw 1) as [?|_]; [lia|]. cbn [orb].
  rewrite !clamp_threads_min by (unfold is_unsigned, INT_MAX in *; lia).
  by rewrite Z.min_r, Z.min_id by lia.
Qed.

Lemma requests_above_limit_coincide_witness :
  (2 ≤ 2)%Z ∧ (2 ≤ 9 ≤ INT_MAX)%Z
  ∧ custom_parallel_count_scheduled id 2 [1; 7; 14]%Z is_divisible_by_7 9
    = custom_parallel_count_scheduled id 2 [1; 7; 14]%Z is_divisible_by_7 2.
Proof.
  assert (2 ≤ 2)%Z as Hhw by lia.
  assert (2 ≤ 9 ≤ INT_MAX)%Z as Hk by (unfold INT_MAX; lia).
  split; [exact Hhw|]. split; [exact Hk|].
  apply (requests_above_limit_coincide id 2 [1; 7; 14]%Z is_divisible_by_7 9 Hhw Hk).
Defined.

(** X8. [x % 7 == 0] holds exactly for the multiples of 7, negative ones
    included: the remainder that truncates towards zero vanishes on the same
    values as divisibility. *)
Theorem is_divisible_by_7_spec (x : Z) :
  is_divisible_by_7 x = true ↔ ∃ q : Z, x = (7 * q)%Z.
Proof.
  unfold is_divisible_by_7. rewrite Z.eqb_eq, Z.rem_divide by lia.
  split; intros [q ->]; exists q; lia.
Qed.

End CounterExtras.

(** ** The data generator *)

Module GeneratorExtras.
Import MachineInt Generator GeneratorFacts.

Section Distribution.

Variable dist : Z → Z → mt19937 → Z * mt19937.

Lemma draws_take (n m : nat) g :
  take n (draws dist (n + m) g) = draws dist n g.
Proof.
  revert g. induction n as [|n IH]; intros g; [done|].
  simpl. destruct (dist 0%Z 1000000%Z g) as [x g']. simpl. by rewrite IH.
Qed.

Lemma draws_in_range (count : nat) g :
  (∀ g', (0 ≤ (dist 0 1000000 g').1 ≤ 1000000)%Z) →
  Forall (λ x, (0 ≤ x ≤ 1000000)%Z) (draws dist count g).
Proof.
  intros Hdist. revert g. induction count as [|count IH]; intros g; [constructor|].
  simpl. pose proof (Hdist g) as Hx.
  destruct (dist 0%Z 1000000%Z g) as [x g']. constructor; [done | apply IH].
Qed.

(** X9. The generator returns a vector of exactly the requested length in
    which position [i] holds the [i]-th value drawn from the engine seeded
    with [seed]: the loop overwrites every zero-initialised element, in
    order, and nothing else. *)
Theorem generated_vector_is_the_draws (size : nat) (seed : Z) :
  length (generate_random_vector dist size seed) = size
  ∧ generate_random_vector dist size seed = draws dist size (mt19937_seed seed).
Proof.
  rewrite generate_random_vector_draws. split; [apply draws_length | done].
Qed.

(** X10. Under one seed a shorter vector is the beginning of a longer one:
    the first [n] elements of the vector of length [n + m] are the vector of
    length [n]. *)
Theorem shorter_vector_is_prefix (n m : nat) (seed : Z) :
  take n (generate_random_vector dist (n + m) seed)
  = generate_random_vector dist n seed.
Proof. rewrite !generate_random_vector_draws. apply draws_take. Qed.

(** X11. If the distribution keeps to its bounds [0 .. 1,000,000], so does
    every element of every generated vector. *)
Theorem generated_values_in_range (size : nat) (seed : Z) :
  (∀ g, (0 ≤ (dist 0 1000000 g).1 ≤ 1000000)%Z) →
  ∀ x, x ∈ generate_random_vector dist size seed → (0 ≤ x ≤ 1000000)%Z.
Proof.
  intros Hdist x Hx. rewrite generate_random_vector_draws in Hx.
  pose proof (draws_in_range size (mt19937_seed seed) Hdist) as Hall.
  rewrite Forall_forall in Hall. by apply Hall.
Qed.

End Distribution.

Lemma modulo_distribution_in_range g :
  (0 ≤ (modulo_distribution 0 1000000 g).1 ≤ 1000000)%Z.
Proof.
  unfold modulo_distribution. destruct (mt19937_next g) as [y g']. cbn [fst].
  pose proof (Z.mod_pos_bound y (1000000 - 0 + 1) ltac:(lia)). lia.
Qed.

Lemma generated_values_in_range_witness :
  (∀ g, (0 ≤ (modulo_distribution 0 1000000 g).1 ≤ 1000000)%Z)
  ∧ ∀ x, x ∈ generate_random_vector modulo_distribution 3 1 → (0 ≤ x ≤ 1000000)%Z.
Proof.
  split; [exact modulo_distribution_in_range|].
  apply (generated_values_in_range modulo_distribution 3 1
    modulo_distribution_in_range).
Defined.

End GeneratorExtras.

(** ** The experiment runner and the entry point *)

Module RunnerExtras.
Import MachineInt MachineIntFacts Counter CounterFacts Generator GeneratorFacts.
Import Runner RunnerFacts.

(** X12. An experiment whose sweep runs to its end (at least one hardware
    thread, or an empty sequence) prints, in this order and nothing else:
    its header, the four baseline timings (no policy, seq, par, par_unseq),
    the custom header, one timing per thread count from 1 to twice
    [hardware_threads] in increasing order, and one best-K line, which names
    [hardware_threads] (4 when the hardware reports 0). *)
Theorem run_experiment_prints e numbers label p :
  (0 ≤ hardware_concurrency e < 2 ^ 30)%Z →
  numbers = [] ∨ (1 ≤ hardware_concurrency e)%Z →
  ∃ best,
    run_experiment e numbers label p
    = ([ExperimentHeader label;
        StrategyTime NoPolicy (elapsed_ms e label NoPolicy);
        StrategyTime ExecutionSeq (elapsed_ms e label ExecutionSeq);
        StrategyTime ExecutionPar (elapsed_ms e label ExecutionPar);
        StrategyTime ExecutionParUnseq (elapsed_ms e label ExecutionParUnseq);
        CustomHeader]
       ++ ((λ k, ThreadsTime k (elapsed_ms e label (Custom k)))
             <$> seqZ 1 (2 * hardware_threads_of e))
       ++ [BestK best (hardware_threads_of e)],
       Some ())
    ∧ length (output (run_experiment e numbers label p))
      = 7 + Z.to_nat (2 * hardware_threads_of e)
    ∧ hardware_threads_of e
      = (if decide (hardware_concurrency e = 0) then 4 else hardware_concurrency e)%Z.
Proof.
  intros Hhw Hruns. eexists.
  rewrite run_experiment_output by (by apply run_experiment_returns).
  split; [reflexivity|]. split.
  - unfold output. cbn [fst]. rewrite !length_app, length_fmap, length_seqZ.
    simpl. lia.
  - destruct (decide (hardware_concurrency e = 0%Z)) as [Hz|Hnz].
    + by apply hardware_threads_of_zero.
    + apply hardware_threads_of_positive. lia.
Qed.

Lemma run_experiment_prints_witness :
  (0 ≤ hardware_concurrency no_threads_reported < 2 ^ 30)%Z
  ∧ (([] : list Z) = [] ∨ (1 ≤ hardware_concurrency no_threads_reported)%Z)
  ∧ ∃ best,
      run_experiment no_threads_reported [] "empty" is_divisible_by_7
      = ([ExperimentHeader "empty";
          StrategyTime NoPolicy (elapsed_ms no_threads_reported "empty" NoPolicy);
          StrategyTime ExecutionSeq
            (elapsed_ms no_threads_reported "empty" ExecutionSeq);
          StrategyTime ExecutionPar
            (elapsed_ms no_threads_reported "empty" ExecutionPar);
          StrategyTime ExecutionParUnseq
            (elapsed_ms no_threads_reported "empty" ExecutionParUnseq);
          CustomHeader]
         ++ ((λ k, ThreadsTime k (elapsed_ms no_threads_reported "empty" (Custom k)))
               <$> seqZ 1 (2 * hardware_threads_of no_threads_reported))
         ++ [BestK best (hardware_threads_of no_threads_reported)],
         Some ())
      ∧ length (output (run_experiment no_threads_reported [] "empty"
                  is_divisible_by_7))
        = 7 + Z.to_nat (2 * hardware_threads_of no_threads_reported)
      ∧ hardware_threads_of no_threads_reported
        = (if decide (hardware_concurrency no_threads_reported = 0)
           then 4 else hardware_concurrency no_threads_reported)%Z.
Proof.
  assert (0 ≤ hardware_concurrency no_threads_reported < 2 ^ 30)%Z as Hhw
    by (simpl; lia).
  assert (([] : list Z) = [] ∨ (1 ≤ hardware_concurrency no_threads_reported)%Z)
    as Hruns by (by left).
  split; [exact Hhw|]. split; [exact Hruns|].
  apply (run_experiment_prints no_threads_reported [] "empty" is_divisible_by_7
    Hhw Hruns).
Defined.

(** What one experiment leaves in the output when the hardware reports at
    least one thread. *)
Lemma run_experiment_readings e numbers label p :
  (1 ≤ hardware_concurrency e < 2 ^ 30)%Z →
  ∃ out best,
    run_experiment e numbers label p = (out, Some ())
    ∧ swept_thread_counts out = seqZ 1 (2 * hardware_concurrency e)
    ∧ reported_best out = [best].
Proof.
  intros Hhw.
  rewrite run_experiment_output by (apply run_experiment_returns; [lia | right; lia]).
  rewrite hardware_threads_of_positive by done.
  eexists _, _. split; [reflexivity|].
  rewrite !swept_thread_counts_app, !reported_best_app.
  rewrite swept_thread_counts_threads_times, reported_best_threads_times.
  split; [|reflexivity].
  cbn [swept_thread_counts omap list_omap app]. by rewrite app_nil_r.
Qed.

(** X15. With at least one hardware thread the program runs to the end and
    exits with status 0, whatever the distribution and the clock; each of
    its six experiments times every thread count from 1 to twice the
    hardware concurrency, in increasing order, and reports one best K. *)
Theorem main_runs_to_exit dist e :
  (1 ≤ hardware_concurrency e < 2 ^ 30)%Z →
  (main dist e).2 = Some 0%Z
  ∧ swept_thread_counts (output (main dist e))
    = concat (replicate 6 (seqZ 1 (2 * hardware_concurrency e)))
  ∧ length (reported_best (output (main dist e))) = 6.
Proof.
  intros Hhw.
  assert (∀ data_size, ∃ out,
    main_step dist e () data_size = (out, Some ())
    ∧ swept_thread_counts out
      = seqZ 1 (2 * hardware_concurrency e) ++ seqZ 1 (2 * hardware_concurrency e)
    ∧ length (reported_best out) = 2) as Hstep.
  { intros data_size. unfold main_step.
    set (numbers := generate_random_vector _ _ _). clearbody numbers.
    set (label1 := "Dataset N=" +:+ to_string data_size +:+ ", x > 500000").
    set (label2 := "Dataset N=" +:+ to_string data_size +:+ ", x % 7 == 0").
    clearbody label1 label2.
    destruct (run_experiment_readings e numbers label1 is_greater_than_500k Hhw)
      as (out1 & best1 & -> & Hs1 & Hb1).
    destruct (run_experiment_readings e numbers label2 is_divisible_by_7 Hhw)
      as (out2 & best2 & -> & Hs2 & Hb2).
    exists (out1 ++ out2). split; [done|].
    by rewrite swept_thread_counts_app, reported_best_app, Hs1, Hs2, Hb1, Hb2. }
  destruct (Hstep 100000%Z) as (out1 & H1 & Hs1 & Hb1).
  destruct (Hstep 1000000%Z) as (out2 & H2 & Hs2 & Hb2).
  destruct (Hstep 5000000%Z) as (out3 & H3 & Hs3 & Hb3).
  assert (for_each (main_step dist e) data_sizes ()
          = (out1 ++ out2 ++ out3, Some ())) as Hloop.
  { unfold data_sizes. cbn [for_each].
    rewrite (bind_completed _ _ out1 () H1).
    rewrite (bind_completed _ _ out2 () H2).
    rewrite (bind_completed _ _ out3 () H3).
    unfold output, ret. cbn [fst snd]. by rewrite app_nil_r. }
  unfold main. rewrite Hloop. split; [done|].
  unfold output, bind, print, ret. cbn [fst app].
  change (swept_thread_counts
            (CppVersion :: Build :: HardwareThreads (hardware_concurrency e)
               :: (out1 ++ out2 ++ out3) ++ []))
    with (swept_thread_counts ((out1 ++ out2 ++ out3) ++ [])).
  change (reported_best
            (CppVersion :: Build :: HardwareThreads (hardware_concurrency e)
               :: (out1 ++ out2 ++ out3) ++ []))
    with (reported_best ((out1 ++ out2 ++ out3) ++ [])).
  rewrite !swept_thread_counts_app, !reported_best_app, !length_app.
  rewrite Hs1, Hs2, Hs3, Hb1, Hb2, Hb3.
  split; [|done]. cbn [replicate concat swept_thread_counts omap list_omap].
  by rewrite !app_nil_r, <- !app_assoc.
Qed.

Lemma main_runs_to_exit_witness :
  (1 ≤ hardware_concurrency two_threads < 2 ^ 30)%Z
  ∧ (main modulo_distribution two_threads).2 = Some 0%Z.
Proof.
  assert (1 ≤ hardware_concurrency two_threads < 2 ^ 30)%Z as Hhw
    by (simpl; lia).
  split; [exact Hhw|].
  apply (main_runs_to_exit modulo_distribution two_threads Hhw).
Defined.

(** What one experiment leaves in the output when the calls of its sweep
    come back: at least one hardware thread, or a division by zero that lets
    the call go on. *)
Lemma run_experiment_under_readings (undefined : option nat) e numbers label p :
  (0 ≤ hardware_concurrency e < 2 ^ 30)%Z →
  (1 ≤ hardware_concurrency e)%Z ∨ is_Some undefined →
  ∃ out best,
    run_experiment_under undefined e numbers label p = (out, Some ())
    ∧ experiment_blocks out = [label]
    ∧ swept_thread_counts out = seqZ 1 (2 * hardware_threads_of e)
    ∧ reported_best out = [best].
Proof.
  intros Hhw Hruns.
  rewrite run_experiment_under_output
    by (apply run_experiment_under_returns; [done | by right]).
  eexists _, _. split; [reflexivity|].
  rewrite !experiment_blocks_app, !swept_thread_counts_app, !reported_best_app.
  rewrite experiment_blocks_threads_times, swept_thread_counts_threads_times,
    reported_best_threads_times.
  split; [done|]. split; [|reflexivity].
  cbn [swept_thread_counts omap list_omap app]. by rewrite app_nil_r.
Qed.

(** X14. In every run in which the counter's division by zero, if reached,
    does not stop the process (at least one hardware thread, or a division
    that lets the call go on with any value), the program runs its six
    experiments to the end and exits with status 0; each experiment times
    every thread count from 1 to twice [hardware_threads] and reports one
    best K.  With the concurrency reported as 0 that is six sweeps over 1
    to 8. *)
Theorem main_under_runs_to_exit (undefined : option nat) dist e :
  (0 ≤ hardware_concurrency e < 2 ^ 30)%Z →
  (1 ≤ hardware_concurrency e)%Z ∨ is_Some undefined →
  (main_under undefined dist e).2 = Some 0%Z
  ∧ experiment_blocks (output (main_under undefined dist e))
    = ["Dataset N=100000, x > 500000"; "Dataset N=100000, x % 7 == 0";
       "Dataset N=1000000, x > 500000"; "Dataset N=1000000, x % 7 == 0";
       "Dataset N=5000000, x > 500000"; "Dataset N=5000000, x % 7 == 0"]
  ∧ swept_thread_counts (output (main_under undefined dist e))
    = concat (replicate 6 (seqZ 1 (2 * hardware_threads_of e)))
  ∧ length (reported_best (output (main_under undefined dist e))) = 6
  ∧ (hardware_concurrency e = 0%Z → hardware_threads_of e = 4%Z).
Proof.
  intros Hhw Hruns.
  assert (∀ data_size, ∃ out,
    main_step_under undefined dist e () data_size = (out, Some ())
    ∧ experiment_blocks out
      = ["Dataset N=" +:+ to_string data_size +:+ ", x > 500000";
         "Dataset N=" +:+ to_string data_size +:+ ", x % 7 == 0"]
    ∧ swept_thread_counts out
      = seqZ 1 (2 * hardware_threads_of e) ++ seqZ 1 (2 * hardware_threads_of e)
    ∧ length (reported_best out) = 2) as Hstep.
  { intros data_size. unfold main_step_under.
    set (numbers := generate_random_vector _ _ _). clearbody numbers.
    set (label1 := "Dataset N=" +:+ to_string data_size +:+ ", x > 500000").
    set (label2 := "Dataset N=" +:+ to_string data_size +:+ ", x % 7 == 0").
    clearbody label1 label2.
    destruct (run_experiment_under_readings undefined e numbers label1
      is_greater_than_500k Hhw Hruns) as (out1 & best1 & -> & Hl1 & Hs1 & Hb1).
    destruct (run_experiment_under_readings undefined e numbers label2
      is_divisible_by_7 Hhw Hruns) as (out2 & best2 & -> & Hl2 & Hs2 & Hb2).
    exists (out1 ++ out2). split; [done|].
    by rewrite experiment_blocks_app, swept_thread_counts_app, reported_best_app,
      Hl1, Hl2, Hs1, Hs2, Hb1, Hb2. }
  destruct (Hstep 100000%Z) as (out1 & H1 & Hl1 & Hs1 & Hb1).
  destruct (Hstep 1000000%Z) as (out2 & H2 & Hl2 & Hs2 & Hb2).
  destruct (Hstep 5000000%Z) as (out3 & H3 & Hl3 & Hs3 & Hb3).
  assert (for_each (main_step_under undefined dist e) data_sizes ()
          = (out1 ++ out2 ++ out3, Some ())) as Hloop.
  { unfold data_sizes. cbn [for_each].
    rewrite (bind_completed _ _ out1 () H1).
    rewrite (bind_completed _ _ out2 () H2).
    rewrite (bind_completed _ _ out3 () H3).
    unfold output, ret. cbn [fst snd]. by rewrite app_nil_r. }
  unfold main_under. rewrite Hloop. split; [done|].
  unfold output, bind, print, ret. cbn [fst app].
  change (experiment_blocks
            (CppVersion :: Build :: HardwareThreads (hardware_concurrency e)
               :: (out1 ++ out2 ++ out3) ++ []))
    with (experiment_blocks ((out1 ++ out2 ++ out3) ++ [])).
  change (swept_thread_counts
            (CppVersion :: Build :: HardwareThreads (hardware_concurrency e)
               :: (out1 ++ out2 ++ out3) ++ []))
    with (swept_thread_counts ((out1 ++ out2 ++ out3) ++ [])).
  change (reported_best
            (CppVersion :: Build :: HardwareThreads (hardware_concurrency e)
               :: (out1 ++ out2 ++ out3) ++ []))
    with (reported_best ((out1 ++ out2 ++ out3) ++ [])).
  rewrite !experiment_blocks_app, !swept_thread_counts_app, !reported_best_app,
    !length_app.
  rewrite Hl1, Hl2, Hl3, Hs1, Hs2, Hs3, Hb1, Hb2, Hb3.
  split; [done|]. split; [|split; [done | apply hardware_threads_of_zero]].
  cbn [replicate concat swept_thread_counts omap list_omap].
  by rewrite !app_nil_r, <- !app_assoc.
Qed.

Lemma main_under_runs_to_exit_witness :
  (0 ≤ hardware_concurrency no_threads_reported < 2 ^ 30)%Z
  ∧ ((1 ≤ hardware_concurrency no_threads_reported)%Z ∨ is_Some (Some 0))
  ∧ (main_under (Some 0) modulo_distribution no_threads_reported).2 = Some 0%Z.
Proof.
  assert (0 ≤ hardware_concurrency no_threads_reported < 2 ^ 30)%Z as Hhw
    by (simpl; lia).
  assert ((1 ≤ hardware_concurrency no_threads_reported)%Z ∨ is_Some (Some 0))
    as Hruns by (right; by eexists).
  split; [exact Hhw|]. split; [exact Hruns|].
  destruct (main_under_runs_to_exit (Some 0) modulo_distribution
    no_threads_reported Hhw Hruns) as (Hexit & _).
  exact Hexit.
Defined.

End RunnerExtras.
